(** * lsst.db.Db: a wrapper around the MySQLdb driver

    A shallow embedding of [python/lsst/db/db.py]: the [DbException]
    taxonomy, the classification of driver error codes, the constructor of
    [Db], the connection life cycle ([isConnected], [connect], [_doConnect],
    [disconnect]), the command executor ([_execCommand]) and the schema
    operations built on it.

    The MySQLdb driver and [time.sleep] are collaborators outside the module.
    They are modelled as an interface ([Driver]) whose answers may depend on
    the whole history of calls made so far; that history (the [trace]) is the
    only world state besides the fields of the [Db] object itself. *)

From Stdlib Require Import Ascii.
From stdpp Require Import gmap strings list pretty.

Open Scope Z_scope.
Open Scope string_scope.
Open Scope list_scope.

(** ** Python values and exceptions *)

(** The values that travel through keyword arguments and result rows.
    Floating-point numbers are left out: a [sleepLen] is a whole number of
    seconds here. *)
Inductive value :=
| VNone
| VBool (b : bool)
| VInt (n : Z)
| VStr (s : string).

#[global] Instance value_eq_dec : EqDecision value.
Proof. solve_decision. Defined.

(** The subclasses of [MySQLdb.Error] (module [_mysql_exceptions] of the
    driver).  [MySQLdb.Warning] is a sibling of [MySQLdb.Error], not a
    subclass of it. *)
Inductive MySQLdbErrorClass :=
| Error
| InterfaceError
| DatabaseError
| DataError
| OperationalError
| IntegrityError
| InternalError
| ProgrammingError
| NotSupportedError.

#[global] Instance MySQLdbErrorClass_eq_dec : EqDecision MySQLdbErrorClass.
Proof. solve_decision. Defined.

(** Exception objects.  A driver error carries [args = (code, message)]; a
    driver warning turned into an exception by the warnings filter carries
    its message; [DbException] carries an error code and the tuple of
    ancillary messages; every other exception is kept as its type name and
    message. *)
Inductive exn :=
| MySQLdb_Error (cls : MySQLdbErrorClass) (code : Z) (msg : string)
| MySQLdb_Warning (message : string)
| DbException (errCode : Z) (messages : list string)
| PyExc (type_name : string) (message : string).

#[global] Instance exn_eq_dec : EqDecision exn.
Proof. solve_decision. Defined.

(** [isinstance(e, MySQLdb.Error)] *)
Definition isinstance_Error (e : exn) : bool :=
  match e with MySQLdb_Error _ _ _ => true | _ => false end.

(** [isinstance(e, MySQLdb.Warning)] *)
Definition isinstance_Warning (e : exn) : bool :=
  match e with MySQLdb_Warning _ => true | _ => false end.

(** [isinstance(e, MySQLdb.OperationalError)] *)
Definition isinstance_OperationalError (e : exn) : bool :=
  match e with MySQLdb_Error OperationalError _ _ => true | _ => false end.

(** [isinstance(e, DbException)] *)
Definition isinstance_DbException (e : exn) : bool :=
  match e with DbException _ _ => true | _ => false end.

(** ** class DbException: the error codes *)

Module DbException.
Definition CANT_CONNECT_TO_DB : Z := 1500.
Definition CANT_EXEC_SCRIPT   : Z := 1505.
Definition DB_EXISTS          : Z := 1510.
Definition DB_DOES_NOT_EXIST  : Z := 1515.
Definition INVALID_CONN_INFO  : Z := 1520.
Definition INVALID_DB_NAME    : Z := 1525.
Definition INVALID_OPT_FILE   : Z := 1527.
Definition SERVER_CONNECT     : Z := 1530.
Definition SERVER_DISCONN     : Z := 1535.
Definition SERVER_ERROR       : Z := 1540.
Definition NO_DB_SELECTED     : Z := 1545.
Definition NOT_CONNECTED      : Z := 1550.
Definition TB_DOES_NOT_EXIST  : Z := 1555.
Definition TB_EXISTS          : Z := 1560.
Definition SERVER_WARNING     : Z := 1900.
Definition INTERNAL           : Z := 9999.
End DbException.

(** ** class Db: the static maps and the error classifier *)

(** [Db._mysqlErrorMap] *)
Definition _mysqlErrorMap : gmap Z Z :=
  list_to_map
    [ (1007, DbException.DB_EXISTS);
      (1008, DbException.DB_DOES_NOT_EXIST);
      (1050, DbException.TB_EXISTS);
      (1051, DbException.TB_DOES_NOT_EXIST);
      (2002, DbException.SERVER_CONNECT);
      (2003, DbException.SERVER_CONNECT);
      (2006, DbException.SERVER_CONNECT);
      (2013, DbException.SERVER_CONNECT) ].

(** [Db._connectArgNameMap] *)
Definition _connectArgNameMap : gmap string string :=
  list_to_map
    [ ("host",              "host");
      ("user",              "user");
      ("passwd",            "password");
      ("db",                "database");
      ("port",              "port");
      ("unix_socket",       "socket");
      ("connect_timeout",   "connect_timeout");
      ("compress",          "compress");
      ("named_pipe",        "pipe");
      ("read_default_file", "defaults-file");
      ("charset",           "default-character-set");
      ("local_infile",      "local-infile") ].

(** [Db._getErrCode]: [self._mysqlErrorMap.get(mysqlErrCode, SERVER_ERROR)] *)
Definition _getErrCode (mysqlErrCode : Z) : Z :=
  default DbException.SERVER_ERROR (_mysqlErrorMap !! mysqlErrCode).

(** [Db._isConnectionError] *)
Definition _isConnectionError (mysqlErrCode : Z) : bool :=
  bool_decide (_getErrCode mysqlErrCode = DbException.SERVER_CONNECT).

(** ** Python dictionaries with string keys

    A keyword-argument dictionary is kept as the list of its items in the
    order in which a [for k in d] loop visits them. *)

Abbreviation dict := (list (string * value)).

(** [k in d] *)
Definition dict_in (k : string) (d : dict) : bool :=
  existsb (fun kv => bool_decide (kv.1 = k)) d.

(** [d.get(k, dflt)] *)
Fixpoint dict_get (k : string) (dflt : value) (d : dict) : value :=
  match d with
  | [] => dflt
  | (k', v) :: d' => if decide (k' = k) then v else dict_get k dflt d'
  end.

(** the dictionary after [del d[k]] *)
Definition dict_del (k : string) (d : dict) : dict :=
  filter (fun kv => kv.1 ≠ k) d.

(** [d.pop(k, dflt)]: the value and the dictionary left *)
Definition dict_pop (k : string) (dflt : value) (d : dict) : value * dict :=
  (dict_get k dflt d, dict_del k d).

(** the dictionary after [d[k] = v] *)
Definition dict_set (k : string) (v : value) (d : dict) : dict :=
  if dict_in k d
  then map (fun kv => if decide (kv.1 = k) then (k, v) else kv) d
  else d ++ [(k, v)].

(** ** Builtins used by the module *)

(** [repr(s)] of a Python 2 [str]: single quotes unless the string holds a
    single quote and no double quote; backslash, the quote, tab, newline and
    carriage return are escaped, other non-printable bytes become [\xNN]. *)
Definition hex_digit (n : N) : ascii :=
  match n with
  | 0 => "0" | 1 => "1" | 2 => "2" | 3 => "3" | 4 => "4" | 5 => "5"
  | 6 => "6" | 7 => "7" | 8 => "8" | 9 => "9" | 10 => "a" | 11 => "b"
  | 12 => "c" | 13 => "d" | 14 => "e" | _ => "f"
  end%N%char.

Definition has_char (c : ascii) (s : string) : bool :=
  existsb (fun c' => bool_decide (c' = c)) (String.list_ascii_of_string s).

Definition repr_char (quote c : ascii) : string :=
  let n := N_of_ascii c in
  if bool_decide (c = quote) || bool_decide (c = "\"%char)
  then String "\" (String c EmptyString)
  else if bool_decide (n = 9%N) then "\t"
  else if bool_decide (n = 10%N) then "\n"
  else if bool_decide (n = 13%N) then "\r"
  else if (n <? 32)%N || (127 <=? n)%N
  then String "\" (String "x" (String (hex_digit (n / 16))
                                (String (hex_digit (n mod 16)) EmptyString)))
  else String c EmptyString.

Definition double_quote : ascii := ascii_of_N 34.

Definition repr (s : string) : string :=
  let quote : ascii :=
    if has_char "'" s && negb (has_char double_quote s)
    then double_quote else "'"%char in
  String quote
    (String.concat EmptyString (map (repr_char quote) (String.list_ascii_of_string s))
     +:+ String quote EmptyString).

(** [int(s)] for a [str]: surrounding white space, an optional sign and at
    least one decimal digit. *)
Definition is_space (c : ascii) : bool :=
  let n := N_of_ascii c in ((n =? 32) || ((9 <=? n) && (n <=? 13)))%N.

Definition digit_of (c : ascii) : option Z :=
  let n := N_of_ascii c in
  if ((48 <=? n) && (n <=? 57))%N then Some (Z.of_N (n - 48)) else None.

Fixpoint lstrip (l : list ascii) : list ascii :=
  match l with
  | c :: l' => if is_space c then lstrip l' else l
  | [] => []
  end.

Definition strip (l : list ascii) : list ascii :=
  rev (lstrip (rev (lstrip l))).

Fixpoint parse_digits (acc : Z) (l : list ascii) : option Z :=
  match l with
  | [] => Some acc
  | c :: l' =>
      match digit_of c with
      | Some d => parse_digits (10 * acc + d) l'
      | None => None
      end
  end.

Definition int_of_str (s : string) : option Z :=
  match strip (String.list_ascii_of_string s) with
  | [] => None
  | c :: ds =>
      if bool_decide (c = "-"%char) then
        match ds with [] => None | _ => Z.opp <$> parse_digits 0 ds end
      else if bool_decide (c = "+"%char) then
        match ds with [] => None | _ => parse_digits 0 ds end
      else parse_digits 0 (c :: ds)
  end.

(** What a call into a collaborator or a builtin answers. *)
Inductive answer (A : Type) :=
| Returns (a : A)
| Raises (e : exn).
Arguments Returns {A} a.
Arguments Raises {A} e.

(** [int(v)] *)
Definition py_int (v : value) : answer Z :=
  match v with
  | VInt n => Returns n
  | VBool b => Returns (if b then 1 else 0)
  | VStr s =>
      match int_of_str s with
      | Some n => Returns n
      | None =>
          Raises (PyExc "ValueError"
                    ("invalid literal for int() with base 10: " +:+ repr s))
      end
  | VNone =>
      Raises (PyExc "TypeError"
                "int() argument must be a string or a number, not 'NoneType'")
  end.

(** [1 + v] *)
Definition py_one_plus (v : value) : answer Z :=
  match v with
  | VInt n => Returns (1 + n)
  | VBool b => Returns (1 + (if b then 1 else 0))
  | VStr _ =>
      Raises (PyExc "TypeError"
                "unsupported operand type(s) for +: 'int' and 'str'")
  | VNone =>
      Raises (PyExc "TypeError"
                "unsupported operand type(s) for +: 'int' and 'NoneType'")
  end.

(** [v > 0] in Python 2: [None] sorts below every number, a [str] above. *)
Definition py_gt_zero (v : value) : bool :=
  match v with
  | VNone => false
  | VBool b => b
  | VInt n => (0 <? n)%Z
  | VStr _ => true
  end.

(** ** The collaborators: the MySQLdb driver and [time.sleep] *)

Definition handle := nat.
Definition cursor := nat.
Definition row := list value.

(** The calls the module makes into its collaborators. *)
Inductive event :=
| MySQLdb_connect (kwargs : dict)
| conn_ping (h : handle)
| conn_select_db (h : handle) (dbName : string)
| conn_close (h : handle)
| conn_cursor (h : handle)
| cursor_execute (c : cursor) (command : string)
| cursor_fetchone (c : cursor)
| cursor_fetchall (c : cursor)
| cursor_close (c : cursor)
| sleep (secs : Z).

#[global] Instance event_eq_dec : EqDecision event.
Proof. solve_decision. Defined.

(** The history of calls, oldest first. *)
Definition trace := list event.

(** The driver: what each call answers after a given history. *)
Class Driver := {
  drv_connect   : trace -> dict -> answer handle;
  drv_ping      : trace -> handle -> answer unit;
  drv_select_db : trace -> handle -> string -> answer unit;
  drv_close     : trace -> handle -> answer unit;
  drv_cursor    : trace -> handle -> answer cursor;
  drv_execute   : trace -> cursor -> string -> answer unit;
  drv_fetchone  : trace -> cursor -> answer (option row);
  drv_fetchall  : trace -> cursor -> answer (list row);
  drv_cursor_close : trace -> cursor -> answer unit
}.

(** ** The Db object and the monad of its methods *)

Record Db := mkDb {
  _conn : option handle;
  _kwargs : dict;
  _sleepLen : value;
  _attemptMaxNo : Z
}.

Definition with_conn (c : option handle) (self : Db) : Db :=
  mkDb c (_kwargs self) (_sleepLen self) (_attemptMaxNo self).

(** How a method ends: it returns, it raises, or the bound on loop
    iterations of the model was reached. *)
Inductive outcome (A : Type) :=
| Return (a : A)
| Raise (e : exn)
| Diverge.
Arguments Return {A} a.
Arguments Raise {A} e.
Arguments Diverge {A}.

(** A method reads and updates [self] and extends the history. *)
Definition M (A : Type) : Type := Db -> trace -> outcome A * Db * trace.

Definition ret {A} (a : A) : M A := fun self tr => (Return a, self, tr).

Definition raise {A} (e : exn) : M A := fun self tr => (Raise e, self, tr).

Definition bind {A B} (m : M A) (k : A -> M B) : M B :=
  fun self tr =>
    match m self tr with
    | (Return a, self', tr') => k a self' tr'
    | (Raise e, self', tr') => (Raise e, self', tr')
    | (Diverge, self', tr') => (Diverge, self', tr')
    end.

(** [try: m except: h(e)] with a handler for every exception. *)
Definition try_except {A} (m : M A) (h : exn -> M A) : M A :=
  fun self tr =>
    match m self tr with
    | (Raise e, self', tr') => h e self' tr'
    | r => r
    end.

(** [try: m finally: f] *)
Definition try_finally {A} (m : M A) (f : M unit) : M A :=
  fun self tr =>
    match m self tr with
    | (Diverge, self', tr') => (Diverge, self', tr')
    | (r, self', tr') =>
        match f self' tr' with
        | (Return _, self'', tr'') => (r, self'', tr'')
        | (Raise e, self'', tr'') => (Raise e, self'', tr'')
        | (Diverge, self'', tr'') => (Diverge, self'', tr'')
        end
    end.

Definition get_self : M Db := fun self tr => (Return self, self, tr).

Definition set_conn (c : option handle) : M unit :=
  fun self tr => (Return tt, with_conn c self, tr).

(** A call into a collaborator: it is appended to the history and its
    answer becomes the outcome. *)
Definition call {A} (ev : event) (ans : trace -> answer A) : M A :=
  fun self tr =>
    match ans tr with
    | Returns a => (Return a, self, tr ++ [ev])
    | Raises e => (Raise e, self, tr ++ [ev])
    end.

Notation "x <- m ;; k" := (bind m (fun x => k))
  (at level 100, m at next level, right associativity).
Notation "m ;;; k" := (bind m (fun _ => k))
  (at level 100, right associativity).

Definition diverge {A} : M A := fun self tr => (Diverge, self, tr).

(** [try: m except <cls> as e: h(e)]: only the exceptions that are
    instances of the class are handled; an exception raised by the handler
    itself propagates. *)
Definition try_except_as {A} (cls : exn -> bool) (m : M A) (h : exn -> M A) : M A :=
  try_except m (fun e => if cls e then h e else raise e).

(** [time.sleep(v)] *)
Definition py_sleep (v : value) : M unit :=
  match v with
  | VInt n =>
      if (n <? 0)%Z then raise (PyExc "IOError" "[Errno 22] Invalid argument")
      else call (sleep n) (fun _ => Returns tt)
  | VBool b => call (sleep (if b then 1 else 0)) (fun _ => Returns tt)
  | VStr _ | VNone => raise (PyExc "TypeError" "a float is required")
  end.

(** ** Db.__init__ *)

Definition answer_bind {A B} (a : answer A) (k : A -> answer B) : answer B :=
  match a with
  | Returns x => k x
  | Raises e => Raises e
  end.

Notation "x <~ a ;; k" := (answer_bind a (fun x => k))
  (at level 100, a at next level, right associativity).

(** [for k in self._kwargs: if k not in self._connectArgNameMap: raise ...] *)
Fixpoint check_connect_args (items : dict) : answer unit :=
  match items with
  | [] => Returns tt
  | (k, _) :: items' =>
      if bool_decide (is_Some (_connectArgNameMap !! k))
      then check_connect_args items'
      else Raises (DbException DbException.INVALID_CONN_INFO [repr k])
  end.

Definition __init__ (kwargs : dict) : answer Db :=
  let '(sleepLen, kw) := dict_pop "sleepLen" (VInt 3) kwargs in
  let '(maxRetryCount, kw) := dict_pop "maxRetryCount" (VInt 0) kw in
  attemptMaxNo <~ py_one_plus maxRetryCount ;;
  _ <~ check_connect_args kw ;;
  let kw :=
    if dict_in "read_default_file" kw
    then dict_set "read_default_group" (VStr "mysql") kw else kw in
  let kw :=
    if bool_decide (dict_get "host" (VStr EmptyString) kw = VStr "localhost")
    then dict_set "host" (VStr "127.0.0.1") kw else kw in
  kw <~ (if dict_in "port" kw
         then port <~ py_int (dict_get "port" VNone kw) ;;
              Returns (dict_set "port" (VInt port) kw)
         else Returns kw) ;;
  Returns (mkDb None kw sleepLen attemptMaxNo).

(** ** The methods of Db *)

(** [nRowsRet]: the values [0], [1] and ['n'] of the source. *)
Inductive nRows := Rows0 | Rows1 | RowsN.

(** What [_execCommand] returns: [None], one row, or all rows. *)
Inductive fetched :=
| NoResult
| OneRow (r : row)
| AllRows (rs : list row).

(** ["%s" % x] for a name that may be [None] *)
Definition str_of_name (x : option string) : string :=
  match x with Some s => s | None => "None" end.

Section Methods.
Context {drv : Driver}.

(** [Db._handleException] *)
Definition _handleException {A} (e : exn) : M A :=
  match e with
  | MySQLdb_Error _ code m =>
      let msg := "MySQL error " +:+ pretty code +:+ ": " +:+ m in
      let errCode := _getErrCode code in
      raise (DbException errCode [msg])
  | MySQLdb_Warning message =>
      let msg := "MySQL warning " +:+ message in
      let errCode := DbException.SERVER_WARNING in
      raise (DbException errCode [msg])
  | _ => raise e
  end.

(** [Db.isConnected].  The argument of the [debug] call names [error],
    which is bound nowhere in the module: evaluating it raises
    [NameError] before the two statements that follow it. *)
Definition isConnected : M bool :=
  self <- get_self ;;
  match _conn self with
  | None => ret false
  | Some h =>
      try_except_as isinstance_OperationalError
        (call (conn_ping h) (fun tr => drv_ping tr h) ;;; ret true)
        (fun e =>
           match e with
           | MySQLdb_Error _ code _ =>
               if _isConnectionError code then
                 (raise (PyExc "NameError" "global name 'error' is not defined")
                    : M unit) ;;;
                 set_conn None ;;;
                 ret false
               else raise e
           | _ => raise e
           end)
  end.

(** The [while True] loop of [Db._doConnect]; [n] is the attempt
    counter.  The body of the [try] yields [true] where the source
    returns, the handler yields [false] where the source goes round the
    loop again. *)
Fixpoint _doConnect_loop (fuel : nat) (n : Z) : M unit :=
  match fuel with
  | O => diverge
  | S fuel' =>
      self <- get_self ;;
      done <- try_except
        (h <- call (MySQLdb_connect (_kwargs self))
                   (fun tr => drv_connect tr (_kwargs self)) ;;
         set_conn (Some h) ;;;
         ret true)
        (fun e =>
           match e with
           | MySQLdb_Error _ code m =>
               let msg := "MySQL error " +:+ pretty code +:+ ": " +:+ m in
               if (n >=? _attemptMaxNo self)%Z || negb (_isConnectionError code)
               then
                 let errCode := _getErrCode code in
                 raise (DbException errCode [msg])
               else
                 (if py_gt_zero (_sleepLen self)
                  then py_sleep (_sleepLen self) else ret tt) ;;;
                 ret false
           | _ => _handleException e
           end) ;;
      if (done : bool) then ret tt else _doConnect_loop fuel' (n + 1)
  end.

(** [Db._doConnect]: the loop leaves after at most
    [max 1 _attemptMaxNo] rounds. *)
Definition _doConnect : M unit :=
  self <- get_self ;;
  _doConnect_loop (Z.to_nat (Z.max 1 (_attemptMaxNo self))) 1.

(** [self._conn.<method>(...)]: attribute access on [None] raises. *)
Definition the_conn : M handle :=
  self <- get_self ;;
  match _conn self with
  | Some h => ret h
  | None =>
      raise (PyExc "AttributeError" "'NoneType' object has no attribute")
  end.

(** [Db.connect] *)
Definition connect (dbName : option string) : M unit :=
  connected <- isConnected ;;
  (if negb connected then _doConnect else ret tt) ;;;
  match dbName with
  | Some name =>
      try_except
        (h <- the_conn ;;
         call (conn_select_db h name) (fun tr => drv_select_db tr h name))
        (fun e => _handleException e)
  | None => ret tt
  end.

(** [Db.disconnect] *)
Definition disconnect : M unit :=
  self <- get_self ;;
  match _conn self with
  | None => ret tt
  | Some h =>
      try_except (call (conn_close h) (fun tr => drv_close tr h))
                 (fun _ => ret tt) ;;;
      set_conn None
  end.

(** [Db._execCommand] *)
Definition _execCommand (command : string) (nRowsRet : nRows) : M fetched :=
  self <- get_self ;;
  (if _conn self is None then connect None else ret tt) ;;;
  h <- the_conn ;;
  cur <- call (conn_cursor h) (fun tr => drv_cursor tr h) ;;
  try_finally
    (try_except
       (call (cursor_execute cur command)
             (fun tr => drv_execute tr cur command))
       (fun e => _handleException e) ;;;
     match nRowsRet with
     | Rows0 => ret NoResult
     | Rows1 =>
         r <- call (cursor_fetchone cur) (fun tr => drv_fetchone tr cur) ;;
         ret (match r with Some r => OneRow r | None => NoResult end)
     | RowsN =>
         rs <- call (cursor_fetchall cur) (fun tr => drv_fetchall tr cur) ;;
         ret (AllRows rs)
     end)
    (call (cursor_close cur) (fun tr => drv_cursor_close tr cur)).

Definition execCommand0 (command : string) : M unit :=
  _execCommand command Rows0 ;;; ret tt.

Definition execCommand1 (command : string) : M fetched :=
  _execCommand command Rows1.

Definition execCommandN (command : string) : M fetched :=
  _execCommand command RowsN.
End Methods.

(** [v == 1] *)
Definition py_eq_one (v : value) : bool :=
  match v with
  | VInt n => bool_decide (n = 1)
  | VBool b => b
  | _ => false
  end.

Section SchemaOperations.
Context {drv : Driver}.

(** [count[0] == 1] on what [execCommand1] returned *)
Definition first_is_one (count : fetched) : M bool :=
  match count with
  | NoResult =>
      raise (PyExc "TypeError"
               "'NoneType' object has no attribute '__getitem__'")
  | OneRow [] | AllRows [] =>
      raise (PyExc "IndexError" "tuple index out of range")
  | OneRow (v :: _) => ret (py_eq_one v)
  | AllRows (_ :: _) => ret false
  end.

(** [Db.createDb] *)
Definition createDb (dbName : option string) (mayExist : bool) : M unit :=
  match dbName with
  | None => raise (DbException DbException.INVALID_DB_NAME ["<None>"])
  | Some name =>
      try_except_as isinstance_DbException
        (execCommand0 ("CREATE DATABASE `" +:+ name +:+ "`"))
        (fun e =>
           match e with
           | DbException errCode _ =>
               if bool_decide (errCode = DbException.DB_EXISTS) && mayExist
               then ret tt
               else raise e
           | _ => raise e
           end)
  end.

(** [Db.useDb] *)
Definition useDb (dbName : option string) : M unit :=
  match dbName with
  | Some name => connect (Some name)
  | None => ret tt
  end.

(** [Db.dbExists] *)
Definition dbExists (dbName : option string) : M bool :=
  match dbName with
  | None => ret false
  | Some name =>
      let cmd := "SELECT COUNT(*) FROM information_schema.schemata " in
      let cmd := cmd +:+ "WHERE schema_name = '" +:+ name +:+ "'" in
      count <- execCommand1 cmd ;;
      first_is_one count
  end.

(** [Db.dropDb] *)
Definition dropDb (dbName : option string) (mustExist : bool) : M unit :=
  try_except_as isinstance_DbException
    (execCommand0 ("DROP DATABASE `" +:+ str_of_name dbName +:+ "`"))
    (fun e =>
       match e with
       | DbException errCode _ =>
           if bool_decide (errCode = DbException.DB_DOES_NOT_EXIST)
              && negb mustExist
           then ret tt
           else raise e
       | _ => raise e
       end).

(** [Db.tableExists] *)
Definition tableExists (tableName : string) (dbName : option string) : M bool :=
  let dbNameStr :=
    match dbName with
    | Some name => "'" +:+ name +:+ "'"
    | None => "DATABASE()"
    end in
  let cmd := "SELECT COUNT(*) FROM information_schema.tables " in
  let cmd := cmd +:+ "WHERE table_schema = " +:+ dbNameStr
                 +:+ " AND table_name = '" +:+ tableName +:+ "'" in
  count <- execCommand1 cmd ;;
  first_is_one count.

(** [Db.createTable] *)
Definition createTable (tableName tableSchema : string)
    (dbName : option string) (mayExist : bool) : M unit :=
  let dbNameStr :=
    match dbName with
    | Some name => "`" +:+ name +:+ "`."
    | None => EmptyString
    end in
  try_except_as isinstance_DbException
    (execCommand0 ("CREATE TABLE " +:+ dbNameStr +:+ "`" +:+ tableName
                     +:+ "` " +:+ tableSchema))
    (fun e =>
       match e with
       | DbException errCode _ =>
           if bool_decide (errCode = DbException.TB_EXISTS) && mayExist
           then ret tt
           else raise e
       | _ => raise e
       end).

(** [Db.dropTable] *)
Definition dropTable (tableName : string) (dbName : option string)
    (mustExist : bool) : M unit :=
  let dbNameStr :=
    match dbName with
    | Some name => "`" +:+ name +:+ "`."
    | None => EmptyString
    end in
  try_except_as isinstance_DbException
    (execCommand0 ("DROP TABLE " +:+ dbNameStr +:+ "`" +:+ tableName +:+ "`"))
    (fun e =>
       match e with
       | DbException errCode _ =>
           if bool_decide (errCode = DbException.TB_DOES_NOT_EXIST)
              && negb mustExist
           then ret tt
           else raise e
       | _ => raise e
       end).
End SchemaOperations.


(** ** Vocabulary of the statements *)

(** The events of a retry sequence: a pause is one [sleep] when
    [sleepLen > 0] and nothing otherwise; after the first attempt every
    further attempt is preceded by a pause. *)
Definition pause (s : Z) : list event :=
  if (0 <? s)%Z then [sleep s] else [].

Fixpoint more_attempts (k : nat) (s : Z) (kw : dict) : list event :=
  match k with
  | O => []
  | S k' => pause s ++ MySQLdb_connect kw :: more_attempts k' s kw
  end.

Definition retry_events (N : nat) (s : Z) (kw : dict) : list event :=
  MySQLdb_connect kw :: more_attempts (N - 1) s kw.

Definition is_connect (ev : event) : bool :=
  match ev with MySQLdb_connect _ => true | _ => false end.

Definition is_sleep (ev : event) : bool :=
  match ev with sleep _ => true | _ => false end.

(** The shared suppression pattern of the schema operations, on the outcome
    of the statement: a [DbException] of the given kind is absorbed when the
    toggle permits it. *)
Definition absorb (kind : Z) (permit : bool) (r : outcome unit) : outcome unit :=
  match r with
  | Raise (DbException errCode _) =>
      if bool_decide (errCode = kind) && permit then Return tt else r
  | _ => r
  end.

(** The first statement of [_execCommand]:
    [if self._conn is None: self.connect()]. *)
Definition ensure_connected {drv : Driver} : M unit :=
  self <- get_self ;;
  if _conn self is None then connect None else ret tt.

(** What [_handleException] raises for an exception. *)
Definition translated (e : exn) : exn :=
  match e with
  | MySQLdb_Error _ code m =>
      DbException (_getErrCode code)
        ["MySQL error " +:+ pretty code +:+ ": " +:+ m]
  | MySQLdb_Warning message =>
      DbException DbException.SERVER_WARNING ["MySQL warning " +:+ message]
  | _ => e
  end.

(** The history [tr] extends [tr0], and every connection attempt made in
    between was given the keyword arguments [K]. *)
Definition connects_with (K : dict) (tr0 tr : trace) : Prop :=
  ∃ evs, tr = tr0 ++ evs ∧ ∀ kw, MySQLdb_connect kw ∈ evs → kw = K.

(** A method that leaves [_kwargs] alone and connects with nothing else. *)
Definition keeps_kwargs {A} (K : dict) (m : M A) : Prop :=
  ∀ self tr, _kwargs self = K →
    _kwargs (m self tr).1.2 = K ∧ connects_with K tr (m self tr).2.

(** The keys of a dictionary, in iteration order. *)
Definition keys (d : dict) : list string := d.*1.

(** ** Drivers used to run the model on concrete inputs *)

(** A driver whose [connect], [ping] and [execute] always answer the same;
    every other call succeeds. *)
Definition constant_driver (connect_ans : answer handle)
    (ping_ans execute_ans : answer unit) : Driver :=
  {| drv_connect _ _ := connect_ans;
     drv_ping _ _ := ping_ans;
     drv_select_db _ _ _ := Returns tt;
     drv_close _ _ := Returns tt;
     drv_cursor _ _ := Returns 1%nat;
     drv_execute _ _ _ := execute_ans;
     drv_fetchone _ _ := Returns None;
     drv_fetchall _ _ := Returns [];
     drv_cursor_close _ _ := Returns tt |}.

(** A server that refuses the first [k] connection attempts. *)
Definition flaky_driver (k : nat) : Driver :=
  {| drv_connect tr _ :=
       if (length (filter (fun ev => is_connect ev = true) tr) <? k)%nat
       then Raises (MySQLdb_Error OperationalError 2003
                      "Can't connect to MySQL server on '127.0.0.1' (111)")
       else Returns 7%nat;
     drv_ping _ _ := Returns tt;
     drv_select_db _ _ _ := Returns tt;
     drv_close _ _ := Returns tt;
     drv_cursor _ _ := Returns 1%nat;
     drv_execute _ _ _ := Returns tt;
     drv_fetchone _ _ := Returns None;
     drv_fetchall _ _ := Returns [];
     drv_cursor_close _ _ := Returns tt |}.

Definition refused : answer handle :=
  Raises (MySQLdb_Error OperationalError 2003
            "Can't connect to MySQL server on '127.0.0.1' (111)").

Definition access_denied : answer handle :=
  Raises (MySQLdb_Error OperationalError 1045
            "Access denied for user 'u'@'localhost' (using password: YES)").

(** Answers of the driver used below. *)
Definition shutting_down : exn :=
  MySQLdb_Error OperationalError 1053 "Server shutdown in progress".

Definition gone_away : exn :=
  MySQLdb_Error OperationalError 2006 "MySQL server has gone away".

Definition db_exists_error : answer unit :=
  Raises (MySQLdb_Error ProgrammingError 1007
            "Can't create database 'd'; database exists").

Definition db_missing_error : answer unit :=
  Raises (MySQLdb_Error OperationalError 1008
            "Can't drop database 'd'; database doesn't exist").

(** A Db object as the constructor leaves it for
    [Db(host="localhost", port="3306", user="u", sleepLen=2, maxRetryCount=2)]. *)
Definition example_kwargs : dict :=
  [("host", VStr "localhost"); ("port", VStr "3306"); ("user", VStr "u");
   ("sleepLen", VInt 2); ("maxRetryCount", VInt 2)].

Definition example_db : Db :=
  mkDb None [("host", VStr "127.0.0.1"); ("port", VInt 3306); ("user", VStr "u")]
       (VInt 2) 3.

(** ** class DbException: the messages and [__str__] *)

(** [DbException._errorMessages] *)
Definition _errorMessages : gmap Z string :=
  list_to_map
    [ (DbException.CANT_CONNECT_TO_DB, "Can't connect to database.");
      (DbException.CANT_EXEC_SCRIPT, "Can't execute script.");
      (DbException.DB_EXISTS, "Database already exists.");
      (DbException.DB_DOES_NOT_EXIST, "Database does not exist.");
      (DbException.INVALID_CONN_INFO, "Invalid connection parameter.");
      (DbException.INVALID_DB_NAME, "Invalid database name.");
      (DbException.INVALID_OPT_FILE, "Can't open the option file.");
      (DbException.SERVER_CONNECT, "Unable to connect to the database server.");
      (DbException.SERVER_DISCONN,
         "Failed to disconnect from the database server.");
      (DbException.SERVER_ERROR, "Internal database server error.");
      (DbException.NO_DB_SELECTED, "No database selected.");
      (DbException.NOT_CONNECTED, "Not connected to the database server.");
      (DbException.TB_DOES_NOT_EXIST, "Table does not exist.");
      (DbException.TB_EXISTS, "Table already exists.");
      (DbException.SERVER_WARNING, "Warning.");
      (DbException.INTERNAL, "Internal error.") ].

(** [DbException.__str__].  The table entry is used unless it is missing
    or empty ([x or y]); the alternative reads [self.errorCode], an
    attribute the class does not have (the property is [errCode]), so
    evaluating it raises [AttributeError]. *)
Definition __str__ (errCode : Z) (messages : list string) : answer string :=
  msg <~ match _errorMessages !! errCode with
         | Some m =>
             if bool_decide (m = EmptyString)
             then Raises (PyExc "AttributeError"
                            "'DbException' object has no attribute 'errorCode'")
             else Returns m
         | None =>
             Raises (PyExc "AttributeError"
                       "'DbException' object has no attribute 'errorCode'")
         end ;;
  Returns (match messages with
           | [] => msg
           | _ => msg +:+ " (" +:+ String.concat "), (" messages +:+ ")"
           end).

(** ** The remaining queries of Db *)

(** [v != 0] *)
Definition py_ne_zero (v : value) : bool :=
  match v with
  | VInt n => negb (bool_decide (n = 0))
  | VBool b => b
  | VStr _ | VNone => true
  end.

(** [v == 'VIEW'] *)
Definition py_eq_VIEW (v : value) : bool :=
  match v with
  | VStr s => bool_decide (s = "VIEW")
  | _ => false
  end.

Section Queries.
Context {drv : Driver}.

(** [Db.close] *)
Definition close : M unit := disconnect.

(** [len(rows) == 1 and rows[0][0] == 'VIEW'] on what [execCommandN]
    returned *)
Definition single_row_is_VIEW (rows : fetched) : M bool :=
  match rows with
  | NoResult =>
      raise (PyExc "TypeError" "object of type 'NoneType' has no len()")
  | AllRows [[]] => raise (PyExc "IndexError" "tuple index out of range")
  | AllRows [v :: _] => ret (py_eq_VIEW v)
  | AllRows _ => ret false
  | OneRow [VStr s] =>
      if bool_decide (s = EmptyString)
      then raise (PyExc "IndexError" "string index out of range")
      else ret (bool_decide (String.substring 0 1 s = "VIEW"))
  | OneRow [VInt _] =>
      raise (PyExc "TypeError" "'int' object has no attribute '__getitem__'")
  | OneRow [VBool _] =>
      raise (PyExc "TypeError" "'bool' object has no attribute '__getitem__'")
  | OneRow [VNone] =>
      raise (PyExc "TypeError"
               "'NoneType' object has no attribute '__getitem__'")
  | OneRow _ => ret false
  end.

(** [Db.isView] *)
Definition isView (tableName : string) (dbName : option string) : M bool :=
  let dbNameStr :=
    match dbName with
    | Some name => "'" +:+ name +:+ "'"
    | None => "DATABASE()"
    end in
  rows <- execCommandN
            ("SELECT table_type FROM information_schema.tables "
               +:+ "WHERE table_schema=" +:+ dbNameStr
               +:+ " AND table_name='" +:+ tableName +:+ "'") ;;
  single_row_is_VIEW rows.

(** [ret[0] != 0] on what [execCommand1] returned *)
Definition first_is_not_zero (r : fetched) : M bool :=
  match r with
  | NoResult =>
      raise (PyExc "TypeError"
               "'NoneType' object has no attribute '__getitem__'")
  | OneRow [] | AllRows [] =>
      raise (PyExc "IndexError" "tuple index out of range")
  | OneRow (v :: _) => ret (py_ne_zero v)
  | AllRows (_ :: _) => ret true
  end.

(** [Db.userExists] *)
Definition userExists (userName hostName : string) : M bool :=
  r <- execCommand1
         ("SELECT COUNT(*) FROM mysql.user WHERE user='" +:+ userName
            +:+ "' AND host='" +:+ hostName +:+ "'") ;;
  first_is_not_zero r.

End Queries.

(** ** More vocabulary and drivers *)

(** The events of [j] refused attempts, each followed by its pause. *)
Fixpoint failed_attempts (j : nat) (s : Z) (kw : dict) : list event :=
  match j with
  | O => []
  | S j' => MySQLdb_connect kw :: pause s ++ failed_attempts j' s kw
  end.

(** The way out of the [with contextlib.closing(cursor)] block: the cursor
    is closed, and an exception of the close replaces the pending outcome. *)
Definition closed_with {drv : Driver} {A} (cur : cursor) (r : outcome A)
    (self : Db) (t : trace) : outcome A * Db * trace :=
  (match drv_cursor_close t cur with
   | Returns _ => r
   | Raises e' => Raise e'
   end, self, t ++ [cursor_close cur]).

(** After the history [tr], the server opens cursor [cur] on handle [h],
    runs [command] on it, answers the next [fetchone] with [r] and closes
    the cursor. *)
Definition answers_one {drv : Driver} (tr : trace) (h : handle) (cur : cursor)
    (command : string) (r : option row) : Prop :=
  drv_cursor tr h = Returns cur ∧
  drv_execute (tr ++ [conn_cursor h]) cur command = Returns tt ∧
  drv_fetchone (tr ++ [conn_cursor h; cursor_execute cur command]) cur
    = Returns r ∧
  drv_cursor_close
    (tr ++ [conn_cursor h; cursor_execute cur command; cursor_fetchone cur])
    cur = Returns tt.

(** The same with [fetchall] answering [rs]. *)
Definition answers_all {drv : Driver} (tr : trace) (h : handle) (cur : cursor)
    (command : string) (rs : list row) : Prop :=
  drv_cursor tr h = Returns cur ∧
  drv_execute (tr ++ [conn_cursor h]) cur command = Returns tt ∧
  drv_fetchall (tr ++ [conn_cursor h; cursor_execute cur command]) cur
    = Returns rs ∧
  drv_cursor_close
    (tr ++ [conn_cursor h; cursor_execute cur command; cursor_fetchall cur])
    cur = Returns tt.

(** The calls the command executor may make: connection attempts with
    their pauses, and the calls on a cursor; never a ping, a database
    selection or the closing of the connection. *)
Definition executor_event (ev : event) : Prop :=
  match ev with
  | conn_ping _ | conn_select_db _ _ | conn_close _ => False
  | _ => True
  end.

(** A server that accepts the connection and every statement and answers
    the fetches as given. *)
Definition query_driver (one : answer (option row))
    (all : answer (list row)) : Driver :=
  {| drv_connect _ _ := Returns 7%nat;
     drv_ping _ _ := Returns tt;
     drv_select_db _ _ _ := Returns tt;
     drv_close _ _ := Returns tt;
     drv_cursor _ _ := Returns 1%nat;
     drv_execute _ _ _ := Returns tt;
     drv_fetchone _ _ := one;
     drv_fetchall _ _ := all;
     drv_cursor_close _ _ := Returns tt |}.

(** A server on which selecting a database fails. *)
Definition no_such_db_driver : Driver :=
  {| drv_connect _ _ := Returns 7%nat;
     drv_ping _ _ := Returns tt;
     drv_select_db _ _ _ :=
       Raises (MySQLdb_Error OperationalError 1049 "Unknown database 'd'");
     drv_close _ _ := Returns tt;
     drv_cursor _ _ := Returns 1%nat;
     drv_execute _ _ _ := Returns tt;
     drv_fetchone _ _ := Returns None;
     drv_fetchall _ _ := Returns [];
     drv_cursor_close _ _ := Returns tt |}.

(** A server whose [close] fails. *)
Definition close_fails_driver : Driver :=
  {| drv_connect _ _ := Returns 7%nat;
     drv_ping _ _ := Returns tt;
     drv_select_db _ _ _ := Returns tt;
     drv_close _ _ := Raises gone_away;
     drv_cursor _ _ := Returns 1%nat;
     drv_execute _ _ _ := Returns tt;
     drv_fetchone _ _ := Returns None;
     drv_fetchall _ _ := Returns [];
     drv_cursor_close _ _ := Returns tt |}.

Definition connected_db : Db := with_conn (Some 7%nat) example_db.

(** * Properties *)

(** ** Builtins on concrete inputs *)

Example repr_host : repr "socket" = "'socket'".
Proof. reflexivity. Qed.

Example repr_quote :
  repr "it's" = String double_quote ("it's" +:+ String double_quote EmptyString).
Proof. reflexivity. Qed.

Example int_of_str_port : int_of_str " 3306" = Some 3306.
Proof. reflexivity. Qed.

Example int_of_str_neg : int_of_str "-12" = Some (-12).
Proof. reflexivity. Qed.

Example int_of_str_bad : int_of_str "33o6" = None.
Proof. reflexivity. Qed.

Example init_example : __init__ example_kwargs = Returns example_db.
Proof. vm_compute. reflexivity. Qed.

(** ** The error classifier *)

Lemma _getErrCode_cases (c : Z) :
  (c = 1007 ∧ _getErrCode c = DbException.DB_EXISTS) ∨
  (c = 1008 ∧ _getErrCode c = DbException.DB_DOES_NOT_EXIST) ∨
  (c = 1050 ∧ _getErrCode c = DbException.TB_EXISTS) ∨
  (c = 1051 ∧ _getErrCode c = DbException.TB_DOES_NOT_EXIST) ∨
  (c ∈ [2002; 2003; 2006; 2013] ∧ _getErrCode c = DbException.SERVER_CONNECT) ∨
  (_mysqlErrorMap !! c = None ∧ _getErrCode c = DbException.SERVER_ERROR).
Proof.
  unfold _getErrCode, _mysqlErrorMap. cbn [list_to_map foldr uncurry].
  rewrite !lookup_insert, lookup_empty.
  repeat case_decide; subst; cbn [default];
    rewrite ?elem_of_cons; naive_solver.
Qed.

Lemma _isConnectionError_codes (c : Z) :
  _isConnectionError c = true ↔ c ∈ [2002; 2003; 2006; 2013].
Proof.
  unfold _isConnectionError. rewrite bool_decide_eq_true.
  destruct (_getErrCode_cases c)
    as [[-> ->]|[[-> ->]|[[-> ->]|[[-> ->]|[[Hc ->]|[Hn ->]]]]]];
    try (rewrite !elem_of_cons, elem_of_nil; split; [discriminate | lia]).
  - tauto.
  - split; [discriminate|]. intros Hc. exfalso. revert Hn Hc.
    unfold _mysqlErrorMap. cbn [list_to_map foldr uncurry].
    rewrite !lookup_insert, lookup_empty, !elem_of_cons, elem_of_nil.
    repeat case_decide; intros Hn Hc; try discriminate Hn;
      cbn [fst] in *; lia.
Qed.

(** C4.  The classifier is the lookup in the static map with the generic
    server error as default: the four connectivity codes 2002, 2003, 2006
    and 2013 classify as SERVER_CONNECT, every code absent from the map
    classifies as SERVER_ERROR, and [_isConnectionError] holds of a code
    exactly when the code classifies as SERVER_CONNECT. *)
Theorem classifier_spec :
  (∀ c, _getErrCode c =
        match _mysqlErrorMap !! c with
        | Some kind => kind
        | None => DbException.SERVER_ERROR
        end) ∧
  _getErrCode 2002 = DbException.SERVER_CONNECT ∧
  _getErrCode 2003 = DbException.SERVER_CONNECT ∧
  _getErrCode 2006 = DbException.SERVER_CONNECT ∧
  _getErrCode 2013 = DbException.SERVER_CONNECT ∧
  (∀ c, _mysqlErrorMap !! c = None → _getErrCode c = DbException.SERVER_ERROR) ∧
  (∀ c, _isConnectionError c = true ↔ _getErrCode c = DbException.SERVER_CONNECT).
Proof.
  split; [intros c; unfold _getErrCode; by destruct (_mysqlErrorMap !! c)|].
  do 4 (split; [reflexivity|]).
  split; [intros c Hc; unfold _getErrCode; by rewrite Hc|].
  intros c. unfold _isConnectionError. by rewrite bool_decide_eq_true.
Qed.

(** ** Running the monad *)

Lemma bind_Return {A B} (m : M A) (k : A → M B) self tr a self' tr' :
  m self tr = (Return a, self', tr') → bind m k self tr = k a self' tr'.
Proof. unfold bind. by intros ->. Qed.

Lemma bind_Raise {A B} (m : M A) (k : A → M B) self tr e self' tr' :
  m self tr = (Raise e, self', tr') →
  bind m k self tr = (Raise e, self', tr').
Proof. unfold bind. by intros ->. Qed.

Lemma bind_get_self {B} (k : Db → M B) self tr :
  bind get_self k self tr = k self self tr.
Proof. reflexivity. Qed.

Lemma call_Returns {drv : Driver} {A} ev (ans : trace → answer A) self tr a :
  ans tr = Returns a → call ev ans self tr = (Return a, self, tr ++ [ev]).
Proof. unfold call. by intros ->. Qed.

Lemma call_Raises {drv : Driver} {A} ev (ans : trace → answer A) self tr e :
  ans tr = Raises e → call ev ans self tr = (Raise e, self, tr ++ [ev]).
Proof. unfold call. by intros ->. Qed.

Lemma the_conn_Some self tr h :
  _conn self = Some h → the_conn self tr = (Return h, self, tr).
Proof. unfold the_conn. rewrite bind_get_self. by intros ->. Qed.

(** ** The error-handling layer *)

Section HandleException.
Context {drv : Driver}.

Lemma _handleException_raises {A} (e : exn) (self : Db) (tr : trace) :
  _handleException (A := A) e self tr = (Raise (translated e), self, tr).
Proof. by destruct e. Qed.

Lemma translated_unexpected (e : exn) :
  isinstance_Error e = false → isinstance_Warning e = false → translated e = e.
Proof. by destruct e. Qed.

(** A statement whose execution raises: the cursor is opened, the statement
    is run, the exception goes through [_handleException], and the cursor
    is closed on the way out. *)
Lemma _execCommand_execute_raises (command : string) (nRowsRet : nRows)
    (self self1 : Db) (tr tr1 : trace) (h : handle) (cur : cursor) (e : exn) :
  ensure_connected self tr = (Return tt, self1, tr1) →
  _conn self1 = Some h →
  drv_cursor tr1 h = Returns cur →
  drv_execute (tr1 ++ [conn_cursor h]) cur command = Raises e →
  _execCommand command nRowsRet self tr =
    (match drv_cursor_close
             (tr1 ++ [conn_cursor h; cursor_execute cur command]) cur with
     | Returns _ => Raise (translated e)
     | Raises e' => Raise e'
     end,
     self1,
     tr1 ++ [conn_cursor h; cursor_execute cur command; cursor_close cur]).
Proof.
  intros Hens Hc Hcur Hex.
  unfold _execCommand. rewrite bind_get_self.
  unfold ensure_connected in Hens. rewrite bind_get_self in Hens.
  rewrite (bind_Return _ _ _ _ _ _ _ Hens).
  rewrite (bind_Return _ _ _ _ _ _ _ (the_conn_Some _ tr1 _ Hc)).
  rewrite (bind_Return _ _ _ _ _ _ _ (call_Returns _ _ _ _ _ Hcur)).
  unfold try_finally, try_except.
  rewrite (bind_Raise _ _ _ _ (translated e) self1
             ((tr1 ++ [conn_cursor h]) ++ [cursor_execute cur command])).
  2:{ by rewrite (call_Raises _ _ _ _ _ Hex), _handleException_raises. }
  unfold call. rewrite <- !app_assoc. cbn [app].
  by destruct (drv_cursor_close _ cur).
Qed.

End HandleException.

(** ** The retry loop of [_doConnect] *)

Section DoConnect.
Context {drv : Driver}.

(** One round of the loop whose connection attempt raises [e]. *)
Lemma _doConnect_loop_attempt_raises fuel n self tr e :
  drv_connect tr (_kwargs self) = Raises e →
  _doConnect_loop (S fuel) n self tr =
    match e with
    | MySQLdb_Error _ code m =>
        if (n >=? _attemptMaxNo self)%Z || negb (_isConnectionError code)
        then (Raise (translated e), self, tr ++ [MySQLdb_connect (_kwargs self)])
        else
          bind (if py_gt_zero (_sleepLen self)
                then py_sleep (_sleepLen self) else ret tt)
               (fun _ => _doConnect_loop fuel (n + 1))
               self (tr ++ [MySQLdb_connect (_kwargs self)])
    | _ => (Raise (translated e), self, tr ++ [MySQLdb_connect (_kwargs self)])
    end.
Proof.
  intros He. cbn [_doConnect_loop]. rewrite bind_get_self.
  unfold try_except at 1, bind at 1.
  rewrite (bind_Raise _ _ _ _ _ _ _ (call_Raises _ _ _ _ _ He)).
  destruct e as [cls code m| | |]; try reflexivity.
  destruct ((n >=? _attemptMaxNo self)%Z || negb (_isConnectionError code));
    [reflexivity|].
  unfold bind.
  by destruct ((if py_gt_zero (_sleepLen self)
                then py_sleep (_sleepLen self) else ret ())
                 self (tr ++ [MySQLdb_connect (_kwargs self)]))
    as [[[[]| |] ?] ?].
Qed.

(** One round of the loop whose connection attempt succeeds. *)
Lemma _doConnect_loop_attempt_returns fuel n self tr h :
  drv_connect tr (_kwargs self) = Returns h →
  _doConnect_loop (S fuel) n self tr =
    (Return tt, with_conn (Some h) self, tr ++ [MySQLdb_connect (_kwargs self)]).
Proof.
  intros He. cbn [_doConnect_loop]. rewrite bind_get_self.
  unfold try_except at 1, bind at 1.
  by rewrite (bind_Return _ _ _ _ _ _ _ (call_Returns _ _ _ _ _ He)).
Qed.

Lemma _doConnect_fuel self : ∃ fuel, Z.to_nat (Z.max 1 (_attemptMaxNo self)) = S fuel.
Proof. exists (Z.to_nat (Z.max 1 (_attemptMaxNo self)) - 1)%nat. lia. Qed.

(** A pause returns, leaves the object alone and adds its events, or
    raises because [sleepLen] cannot be slept. *)
Lemma pause_outcome self tr :
  let m : M unit := if py_gt_zero (_sleepLen self)
                    then py_sleep (_sleepLen self) else ret tt in
  (∃ evs, m self tr = (Return tt, self, tr ++ evs)) ∨
  (∃ e tr', m self tr = (Raise e, self, tr')).
Proof.
  cbn. destruct (_sleepLen self) as [|[]|z|]; cbn.
  - left. exists []. by rewrite app_nil_r.
  - left. by exists [sleep 1].
  - left. exists []. by rewrite app_nil_r.
  - left. destruct (0 <? z)%Z eqn:Hz.
    + assert ((z <? 0)%Z = false) as -> by lia. by exists [sleep z].
    + exists []. by rewrite app_nil_r.
  - right. by eexists _, _.
Qed.

(** The loop leaves within the rounds that [_doConnect] allows it. *)
Lemma _doConnect_loop_terminates fuel : ∀ n self tr,
  (Z.to_nat (_attemptMaxNo self - n) < fuel)%nat →
  (_doConnect_loop fuel n self tr).1.1 ≠ Diverge.
Proof.
  induction fuel as [|fuel IH]; intros n self tr Hfuel; [lia|].
  destruct (drv_connect tr (_kwargs self)) as [h|e] eqn:He.
  - by rewrite (_doConnect_loop_attempt_returns _ _ _ _ _ He).
  - rewrite (_doConnect_loop_attempt_raises _ _ _ _ _ He).
    destruct e as [cls code m| | |]; try done.
    destruct (n >=? _attemptMaxNo self)%Z eqn:Hn; [done|].
    destruct (negb (_isConnectionError code)); [done|]. cbn [orb].
    destruct (pause_outcome self (tr ++ [MySQLdb_connect (_kwargs self)]))
      as [[evs Hp]|[e [tr' Hp]]]; cbn in Hp.
    + rewrite (bind_Return _ _ _ _ _ _ _ Hp). apply IH. lia.
    + by rewrite (bind_Raise _ _ _ _ _ _ _ Hp).
Qed.

Lemma _doConnect_terminates self tr : (_doConnect self tr).1.1 ≠ Diverge.
Proof.
  unfold _doConnect. rewrite bind_get_self.
  apply _doConnect_loop_terminates. lia.
Qed.

Lemma SERVER_CONNECT_of_connection_error code :
  _isConnectionError code = true → _getErrCode code = DbException.SERVER_CONNECT.
Proof. unfold _isConnectionError. by rewrite bool_decide_eq_true. Qed.

(** The loop against a server that refuses every attempt: from attempt
    [n] on, the [k] attempts that remain after this one are all made. *)
Lemma _doConnect_loop_all_refused self s :
  _sleepLen self = VInt s →
  (∀ tr', ∃ cls code m,
      drv_connect tr' (_kwargs self) = Raises (MySQLdb_Error cls code m) ∧
      _isConnectionError code = true) →
  ∀ k fuel n tr,
    n + Z.of_nat k = _attemptMaxNo self → (k < fuel)%nat →
    ∃ m, _doConnect_loop fuel n self tr =
           (Raise (DbException DbException.SERVER_CONNECT [m]), self,
            tr ++ MySQLdb_connect (_kwargs self)
               :: more_attempts k s (_kwargs self)).
Proof.
  intros Hs Hall. induction k as [|k IH]; intros fuel n tr Hn Hfuel;
    (destruct fuel as [|fuel]; [lia|]);
    destruct (Hall tr) as (cls & code & m & He & Hcode);
    rewrite (_doConnect_loop_attempt_raises _ _ _ _ _ He), Hcode; cbn [negb].
  - assert ((n >=? _attemptMaxNo self)%Z = true) as -> by lia. cbn [orb translated].
    rewrite (SERVER_CONNECT_of_connection_error _ Hcode). eauto.
  - assert ((n >=? _attemptMaxNo self)%Z = false) as -> by lia. cbn [orb].
    rewrite Hs. cbn [py_gt_zero more_attempts]. unfold pause.
    destruct (0 <? s)%Z eqn:Hpos.
    + cbn [py_sleep]. assert ((s <? 0)%Z = false) as -> by lia.
      rewrite (bind_Return _ _ _ _ tt self
                 ((tr ++ [MySQLdb_connect (_kwargs self)]) ++ [sleep s]))
        by reflexivity.
      destruct (IH fuel (n + 1)
                  ((tr ++ [MySQLdb_connect (_kwargs self)]) ++ [sleep s]))
        as [m' ->]; [lia..|].
      exists m'. by rewrite <- !app_assoc.
    + rewrite (bind_Return _ _ _ _ tt self
                 (tr ++ [MySQLdb_connect (_kwargs self)])) by reflexivity.
      destruct (IH fuel (n + 1) (tr ++ [MySQLdb_connect (_kwargs self)]))
        as [m' ->]; [lia..|].
      exists m'. by rewrite <- !app_assoc.
Qed.

(** What a retry sequence holds. *)
Lemma more_attempts_connects k s kw :
  length (filter is_connect (more_attempts k s kw)) = k.
Proof.
  induction k as [|k IH]; [done|]. cbn [more_attempts]. unfold pause.
  destruct (0 <? s)%Z; cbn [app];
    rewrite ?(filter_cons_False _ (sleep s)) by (cbn; tauto);
    rewrite (filter_cons_True _ (MySQLdb_connect kw)) by (cbn; tauto);
    cbn [length]; by rewrite IH.
Qed.

Lemma more_attempts_sleeps k s kw :
  filter is_sleep (more_attempts k s kw) =
  if (0 <? s)%Z then replicate k (sleep s) else [].
Proof.
  induction k as [|k IH]; [by destruct (0 <? s)%Z|].
  cbn [more_attempts]. unfold pause.
  destruct (0 <? s)%Z; cbn [app];
    rewrite ?(filter_cons_True _ (sleep s)) by (cbn; tauto);
    rewrite (filter_cons_False _ (MySQLdb_connect kw)) by (cbn; tauto);
    by rewrite IH.
Qed.

End DoConnect.

Section Connect.
Context {drv : Driver}.

Lemma isConnected_no_handle self tr :
  _conn self = None → isConnected self tr = (Return false, self, tr).
Proof. intros Hc. unfold isConnected. by rewrite bind_get_self, Hc. Qed.

(** Without a handle [connect] goes straight to the retry loop; what the
    loop raises is what [connect] raises. *)
Lemma connect_no_handle_raises dbName self tr e self' tr' :
  _conn self = None →
  _doConnect self tr = (Raise e, self', tr') →
  connect dbName self tr = (Raise e, self', tr').
Proof.
  intros Hc Hd. unfold connect.
  rewrite (bind_Return _ _ _ _ _ _ _ (isConnected_no_handle _ _ Hc)).
  cbn [negb]. by rewrite (bind_Raise _ _ _ _ _ _ _ Hd).
Qed.

(** C1.  With [_attemptMaxNo = N >= 1] and a numeric [sleepLen = s],
    against a server whose every connection attempt fails with a code
    classified as SERVER_CONNECT, [_doConnect] (and [connect] when there is
    no handle) makes exactly [N] calls to the driver's connect, one [sleep s]
    between consecutive attempts when [s > 0] and no sleep call at all when
    [s] is zero, and then raises a [DbException] of kind SERVER_CONNECT,
    leaving the object without a handle. *)
Theorem connect_retries_exactly_N (N s : Z) (self : Db) (tr : trace) :
  _attemptMaxNo self = N →
  (1 ≤ N)%Z →
  _sleepLen self = VInt s →
  (∀ tr', ∃ cls code m,
      drv_connect tr' (_kwargs self) = Raises (MySQLdb_Error cls code m) ∧
      _isConnectionError code = true) →
  (∃ m, _doConnect self tr =
          (Raise (DbException DbException.SERVER_CONNECT [m]), self,
           tr ++ retry_events (Z.to_nat N) s (_kwargs self))) ∧
  (∀ dbName, _conn self = None →
     ∃ m, connect dbName self tr =
            (Raise (DbException DbException.SERVER_CONNECT [m]), self,
             tr ++ retry_events (Z.to_nat N) s (_kwargs self))) ∧
  length (filter is_connect (retry_events (Z.to_nat N) s (_kwargs self)))
    = Z.to_nat N ∧
  filter is_sleep (retry_events (Z.to_nat N) s (_kwargs self))
    = (if (0 <? s)%Z then replicate (Z.to_nat N - 1) (sleep s) else []) ∧
  (s = 0 → ∀ secs, sleep secs ∉ retry_events (Z.to_nat N) s (_kwargs self)).
Proof.
  intros HN Hpos Hs Hall.
  assert (∃ m, _doConnect self tr =
                 (Raise (DbException DbException.SERVER_CONNECT [m]), self,
                  tr ++ retry_events (Z.to_nat N) s (_kwargs self)))
    as [m Hm].
  { unfold _doConnect, retry_events. rewrite bind_get_self.
    apply (_doConnect_loop_all_refused self s Hs Hall); lia. }
  split; [by exists m|]. split.
  { intros dbName Hc. exists m. by apply connect_no_handle_raises. }
  unfold retry_events. split; [|split].
  - rewrite filter_cons_True by (cbn; tauto). cbn [length].
    rewrite more_attempts_connects. lia.
  - rewrite filter_cons_False by (cbn; tauto). apply more_attempts_sleeps.
  - intros -> secs Hin.
    assert (sleep secs ∈ filter is_sleep
              (MySQLdb_connect (_kwargs self)
                 :: more_attempts (Z.to_nat N - 1) 0 (_kwargs self))) as Hf
      by (apply list_elem_of_filter; split; [exact I | exact Hin]).
    rewrite filter_cons_False in Hf by (cbn; tauto).
    rewrite more_attempts_sleeps in Hf. cbn in Hf. by apply elem_of_nil in Hf.
Qed.

(** C2.  A connection attempt whose driver error classifies as anything
    but SERVER_CONNECT ends the loop at once, whatever the attempt counter
    [n] and [_attemptMaxNo] are: a [DbException] is raised that carries the
    classified kind and the driver's code and message, after the one call to
    the driver's connect and without any sleep. *)
Theorem non_connectivity_error_raises_immediately
    (fuel : nat) (n : Z) (self : Db) (tr : trace)
    (cls : MySQLdbErrorClass) (code : Z) (m : string) :
  drv_connect tr (_kwargs self) = Raises (MySQLdb_Error cls code m) →
  _isConnectionError code = false →
  _doConnect_loop (S fuel) n self tr =
    (Raise (DbException (_getErrCode code)
              ["MySQL error " +:+ pretty code +:+ ": " +:+ m]),
     self, tr ++ [MySQLdb_connect (_kwargs self)]) ∧
  _doConnect self tr =
    (Raise (DbException (_getErrCode code)
              ["MySQL error " +:+ pretty code +:+ ": " +:+ m]),
     self, tr ++ [MySQLdb_connect (_kwargs self)]) ∧
  _getErrCode code ≠ DbException.SERVER_CONNECT.
Proof.
  intros He Hcode.
  assert (∀ f k, _doConnect_loop (S f) k self tr =
    (Raise (DbException (_getErrCode code)
              ["MySQL error " +:+ pretty code +:+ ": " +:+ m]),
     self, tr ++ [MySQLdb_connect (_kwargs self)])) as Hloop.
  { intros f k. rewrite (_doConnect_loop_attempt_raises _ _ _ _ _ He), Hcode.
    cbn [negb]. by rewrite orb_true_r. }
  split; [apply Hloop|]. split.
  - unfold _doConnect. rewrite bind_get_self.
    destruct (_doConnect_fuel self) as [f ->]. apply Hloop.
  - unfold _isConnectionError in Hcode. by apply bool_decide_eq_false in Hcode.
Qed.

End Connect.

Lemma connect_retries_exactly_N_witness :
  ∃ m, _doConnect (drv := constant_driver refused (Returns tt) (Returns tt))
         example_db [] =
       (Raise (DbException DbException.SERVER_CONNECT [m]), example_db,
        [] ++ retry_events (Z.to_nat 3) 2 (_kwargs example_db)).
Proof.
  refine (proj1 (connect_retries_exactly_N
                   (drv := constant_driver refused (Returns tt) (Returns tt))
                   3 2 example_db [] eq_refl _ eq_refl _)).
  - lia.
  - intros tr'. eexists _, _, _. split; reflexivity.
Defined.

Lemma non_connectivity_error_raises_immediately_witness :
  _doConnect (drv := constant_driver access_denied (Returns tt) (Returns tt))
    example_db [] =
  (Raise (DbException DbException.SERVER_ERROR
            ["MySQL error 1045: Access denied for user 'u'@'localhost' (using password: YES)"]),
   example_db, [MySQLdb_connect (_kwargs example_db)]).
Proof.
  refine (proj1 (proj2 (non_connectivity_error_raises_immediately
                   (drv := constant_driver access_denied (Returns tt) (Returns tt))
                   0 1 example_db [] OperationalError 1045 _ eq_refl eq_refl))).
Defined.

(** The retry loop on concrete servers. *)
Example doConnect_three_refusals :
  _doConnect (drv := constant_driver refused (Returns tt) (Returns tt))
    example_db [] =
  (Raise (DbException DbException.SERVER_CONNECT
            ["MySQL error 2003: Can't connect to MySQL server on '127.0.0.1' (111)"]),
   example_db,
   [MySQLdb_connect (_kwargs example_db); sleep 2;
    MySQLdb_connect (_kwargs example_db); sleep 2;
    MySQLdb_connect (_kwargs example_db)]).
Proof. vm_compute. reflexivity. Qed.

Example doConnect_recovers :
  _doConnect (drv := flaky_driver 2) example_db [] =
  (Return tt, with_conn (Some 7%nat) example_db,
   [MySQLdb_connect (_kwargs example_db); sleep 2;
    MySQLdb_connect (_kwargs example_db); sleep 2;
    MySQLdb_connect (_kwargs example_db)]).
Proof. vm_compute. reflexivity. Qed.

Example doConnect_gives_up :
  (_doConnect (drv := flaky_driver 3) example_db []).1.1 =
  Raise (DbException DbException.SERVER_CONNECT
           ["MySQL error 2003: Can't connect to MySQL server on '127.0.0.1' (111)"]).
Proof. vm_compute. reflexivity. Qed.

(** ** isConnected *)

Section IsConnected.
Context {drv : Driver}.

(** [isConnected] with a handle, by what the probe answers. *)
Lemma isConnected_probe self tr h :
  _conn self = Some h →
  isConnected self tr =
    match drv_ping tr h with
    | Returns _ => (Return true, self, tr ++ [conn_ping h])
    | Raises (MySQLdb_Error OperationalError code m) =>
        if _isConnectionError code
        then (Raise (PyExc "NameError" "global name 'error' is not defined"),
              self, tr ++ [conn_ping h])
        else (Raise (MySQLdb_Error OperationalError code m),
              self, tr ++ [conn_ping h])
    | Raises e => (Raise e, self, tr ++ [conn_ping h])
    end.
Proof.
  intros Hc. unfold isConnected. rewrite bind_get_self, Hc.
  unfold try_except_as, try_except, bind, call.
  destruct (drv_ping tr h) as [[]|e]; [reflexivity|].
  destruct e as [[] code m| | |]; try reflexivity.
  cbn. by destruct (_isConnectionError code).
Qed.

(** The probe that fails with a connectivity error: the handler stops at
    the undefined name, before the handle is dropped. *)
Lemma isConnected_connectivity_probe_failure self tr h code m :
  _conn self = Some h →
  drv_ping tr h = Raises (MySQLdb_Error OperationalError code m) →
  _isConnectionError code = true →
  isConnected self tr =
    (Raise (PyExc "NameError" "global name 'error' is not defined"),
     self, tr ++ [conn_ping h]).
Proof.
  intros Hc Hp Hcode. by rewrite (isConnected_probe _ _ _ Hc), Hp, Hcode.
Qed.

(** C3, as the code has it.  Without a handle [isConnected] returns False
    and makes no call; with a handle it pings, returns True when the ping
    returns, and when the ping raises anything but an [OperationalError]
    whose code classifies as SERVER_CONNECT, that very exception reaches
    the caller and the handle is kept. *)
Theorem isConnected_spec (self : Db) (tr : trace) :
  (_conn self = None → isConnected self tr = (Return false, self, tr)) ∧
  (∀ h, _conn self = Some h → drv_ping tr h = Returns tt →
        isConnected self tr = (Return true, self, tr ++ [conn_ping h])) ∧
  (∀ h e, _conn self = Some h → drv_ping tr h = Raises e →
          (∀ code m, e = MySQLdb_Error OperationalError code m →
                     _isConnectionError code = false) →
          isConnected self tr = (Raise e, self, tr ++ [conn_ping h])).
Proof.
  split; [apply isConnected_no_handle|]. split.
  - intros h Hc Hp. by rewrite (isConnected_probe _ _ _ Hc), Hp.
  - intros h e Hc Hp Hne. rewrite (isConnected_probe _ _ _ Hc), Hp.
    destruct e as [[] code m| | |]; try reflexivity.
    by rewrite (Hne code m eq_refl).
Qed.

End IsConnected.

Lemma isConnected_spec_witness :
  isConnected (drv := constant_driver (Returns 7%nat) (Raises shutting_down)
                        (Returns tt))
    (with_conn (Some 7%nat) example_db) [] =
  (Raise shutting_down, with_conn (Some 7%nat) example_db, [conn_ping 7%nat]).
Proof.
  refine (proj2 (proj2 (isConnected_spec
            (drv := constant_driver (Returns 7%nat) (Raises shutting_down)
                      (Returns tt))
            (with_conn (Some 7%nat) example_db) []))
            7%nat shutting_down eq_refl eq_refl _).
  intros code m [= <- <-]. reflexivity.
Defined.

(** C3 as stated fails: a probe failure of a kind other than
    SERVER_CONNECT (here code 1053, classified SERVER_ERROR) reaches the
    caller as the driver's own exception, not as a [DbException]. *)
Lemma isConnected_probe_failure_not_DbException :
  _getErrCode 1053 = DbException.SERVER_ERROR ∧
  isConnected (drv := constant_driver (Returns 7%nat) (Raises shutting_down)
                        (Returns tt))
    (with_conn (Some 7%nat) example_db) [] =
  (Raise shutting_down, with_conn (Some 7%nat) example_db, [conn_ping 7%nat]) ∧
  ¬ (∀ (drv : Driver) self tr h cls code m,
       _conn self = Some h →
       drv_ping tr h = Raises (MySQLdb_Error cls code m) →
       _isConnectionError code = false →
       ∃ msgs, (isConnected self tr).1.1 =
               Raise (DbException (_getErrCode code) msgs)).
Proof.
  split; [reflexivity|]. split; [reflexivity|].
  intros Hclaim.
  destruct (Hclaim (constant_driver (Returns 7%nat) (Raises shutting_down)
                      (Returns tt))
              (with_conn (Some 7%nat) example_db) [] 7%nat
              OperationalError 1053 "Server shutdown in progress"
              eq_refl eq_refl eq_refl) as [msgs Hm].
  discriminate Hm.
Qed.

(** The connectivity case on a concrete server. *)
Example isConnected_server_gone_away :
  isConnected (drv := constant_driver (Returns 7%nat) (Raises gone_away)
                        (Returns tt))
    (with_conn (Some 7%nat) example_db) [] =
  (Raise (PyExc "NameError" "global name 'error' is not defined"),
   with_conn (Some 7%nat) example_db, [conn_ping 7%nat]).
Proof. reflexivity. Qed.

(** ** Warnings and unexpected exceptions *)

Section Executor.
Context {drv : Driver}.

Lemma SERVER_WARNING_not_classified code :
  _getErrCode code ≠ DbException.SERVER_WARNING.
Proof.
  destruct (_getErrCode_cases code)
    as [[_ ->]|[[_ ->]|[[_ ->]|[[_ ->]|[[_ ->]|[_ ->]]]]]]; discriminate.
Qed.

(** C5.  When the execution of a statement raises a driver warning,
    [_execCommand] never returns: it raises, and once the cursor has been
    closed the exception raised is a [DbException] of kind SERVER_WARNING
    carrying the warning's message.  SERVER_WARNING is the kind of no driver
    error code. *)
Theorem warning_raises_SERVER_WARNING (command : string) (nRowsRet : nRows)
    (self self1 : Db) (tr tr1 : trace) (h : handle) (cur : cursor)
    (message : string) :
  ensure_connected self tr = (Return tt, self1, tr1) →
  _conn self1 = Some h →
  drv_cursor tr1 h = Returns cur →
  drv_execute (tr1 ++ [conn_cursor h]) cur command
    = Raises (MySQLdb_Warning message) →
  (∃ e, _execCommand command nRowsRet self tr =
          (Raise e, self1,
           tr1 ++ [conn_cursor h; cursor_execute cur command; cursor_close cur])) ∧
  (drv_cursor_close (tr1 ++ [conn_cursor h; cursor_execute cur command]) cur
     = Returns tt →
   _execCommand command nRowsRet self tr =
     (Raise (DbException DbException.SERVER_WARNING
               ["MySQL warning " +:+ message]),
      self1,
      tr1 ++ [conn_cursor h; cursor_execute cur command; cursor_close cur])) ∧
  (∀ code, _getErrCode code ≠ DbException.SERVER_WARNING).
Proof.
  intros Hens Hc Hcur Hex.
  pose proof (_execCommand_execute_raises command nRowsRet _ _ _ _ _ _ _
                Hens Hc Hcur Hex) as Hrun.
  split; [|split].
  - rewrite Hrun. destruct (drv_cursor_close _ cur); eauto.
  - intros Hclose. by rewrite Hrun, Hclose.
  - apply SERVER_WARNING_not_classified.
Qed.

(** C6.  An exception that is neither a [MySQLdb.Error] nor a
    [MySQLdb.Warning] leaves [_handleException] as the same object; so it
    does where the handler is used: a connection attempt that raises it
    ends [_doConnect] with it, after one attempt, and a statement that
    raises it ends [_execCommand] with it once the cursor is closed. *)
Theorem unexpected_exception_reraised (e : exn) :
  isinstance_Error e = false →
  isinstance_Warning e = false →
  (∀ self tr, _handleException (A := unit) e self tr = (Raise e, self, tr)) ∧
  (∀ self tr,
     drv_connect tr (_kwargs self) = Raises e →
     _doConnect self tr = (Raise e, self, tr ++ [MySQLdb_connect (_kwargs self)])) ∧
  (∀ command nRowsRet self self1 tr tr1 h cur,
     ensure_connected self tr = (Return tt, self1, tr1) →
     _conn self1 = Some h →
     drv_cursor tr1 h = Returns cur →
     drv_execute (tr1 ++ [conn_cursor h]) cur command = Raises e →
     drv_cursor_close (tr1 ++ [conn_cursor h; cursor_execute cur command]) cur
       = Returns tt →
     _execCommand command nRowsRet self tr =
       (Raise e, self1,
        tr1 ++ [conn_cursor h; cursor_execute cur command; cursor_close cur])).
Proof.
  intros HnE HnW. pose proof (translated_unexpected e HnE HnW) as Htr.
  split; [|split].
  - intros self tr. by rewrite _handleException_raises, Htr.
  - intros self tr He. unfold _doConnect. rewrite bind_get_self.
    destruct (_doConnect_fuel self) as [f ->].
    rewrite (_doConnect_loop_attempt_raises _ _ _ _ _ He).
    destruct e; try discriminate; by rewrite ?Htr.
  - intros command nRowsRet self self1 tr tr1 h cur Hens Hc Hcur Hex Hclose.
    by rewrite (_execCommand_execute_raises command nRowsRet _ _ _ _ _ _ _
                  Hens Hc Hcur Hex), Hclose, Htr.
Qed.

End Executor.

Lemma warning_raises_SERVER_WARNING_witness :
  _execCommand (drv := constant_driver (Returns 7%nat) (Returns tt)
                         (Raises (MySQLdb_Warning
                                    "Data truncated for column 'i' at row 1")))
    "LOAD DATA LOCAL INFILE '/tmp/t.csv' INTO TABLE t" Rows0 example_db [] =
  (Raise (DbException DbException.SERVER_WARNING
            ["MySQL warning Data truncated for column 'i' at row 1"]),
   with_conn (Some 7%nat) example_db,
   [MySQLdb_connect (_kwargs example_db); conn_cursor 7%nat;
    cursor_execute 1%nat "LOAD DATA LOCAL INFILE '/tmp/t.csv' INTO TABLE t";
    cursor_close 1%nat]).
Proof.
  refine (proj1 (proj2 (warning_raises_SERVER_WARNING
            (drv := constant_driver (Returns 7%nat) (Returns tt)
                      (Raises (MySQLdb_Warning
                                 "Data truncated for column 'i' at row 1")))
            "LOAD DATA LOCAL INFILE '/tmp/t.csv' INTO TABLE t" Rows0
            example_db (with_conn (Some 7%nat) example_db)
            [] [MySQLdb_connect (_kwargs example_db)] 7%nat 1%nat
            "Data truncated for column 'i' at row 1"
            eq_refl eq_refl eq_refl eq_refl)) eq_refl).
Defined.

Lemma unexpected_exception_reraised_witness :
  _doConnect (drv := constant_driver
                       (Raises (PyExc "TypeError"
                                  "'bogus' is an invalid keyword argument for this function"))
                       (Returns tt) (Returns tt))
    example_db [] =
  (Raise (PyExc "TypeError"
            "'bogus' is an invalid keyword argument for this function"),
   example_db, [MySQLdb_connect (_kwargs example_db)]).
Proof.
  refine (proj1 (proj2 (unexpected_exception_reraised
            (drv := constant_driver
                      (Raises (PyExc "TypeError"
                                 "'bogus' is an invalid keyword argument for this function"))
                      (Returns tt) (Returns tt))
            (PyExc "TypeError"
               "'bogus' is an invalid keyword argument for this function")
            eq_refl eq_refl)) example_db [] eq_refl).
Defined.

(** ** Schema operations *)

Section Schema.
Context {drv : Driver}.

(** The [try ... except DbException as e] shared by the four operations. *)
Lemma try_absorb (m : M unit) (kind : Z) (permit : bool) self tr :
  try_except_as isinstance_DbException m
    (fun e =>
       match e with
       | DbException errCode _ =>
           if bool_decide (errCode = kind) && permit then ret tt else raise e
       | _ => raise e
       end) self tr =
  let '(r, self', tr') := m self tr in (absorb kind permit r, self', tr').
Proof.
  unfold try_except_as, try_except.
  destruct (m self tr) as [[[[]|e|] self'] tr']; try reflexivity.
  destruct e as [| |errCode msgs|]; try reflexivity. cbn.
  by destruct (bool_decide (errCode = kind) && permit).
Qed.

(** A statement run for no result on a ready connection: the cursor is
    opened, the statement is executed on it, the cursor is closed. *)
Lemma execCommand0_ready (command : string) (self self1 : Db)
    (tr tr1 : trace) (h : handle) (cur : cursor) :
  ensure_connected self tr = (Return tt, self1, tr1) →
  _conn self1 = Some h →
  drv_cursor tr1 h = Returns cur →
  drv_cursor_close (tr1 ++ [conn_cursor h; cursor_execute cur command]) cur
    = Returns tt →
  execCommand0 command self tr =
    (match drv_execute (tr1 ++ [conn_cursor h]) cur command with
     | Returns _ => Return tt
     | Raises e => Raise (translated e)
     end,
     self1,
     tr1 ++ [conn_cursor h; cursor_execute cur command; cursor_close cur]).
Proof.
  intros Hens Hc Hcur Hclose.
  assert (_execCommand command Rows0 self tr =
    (match drv_execute (tr1 ++ [conn_cursor h]) cur command with
     | Returns _ => Return NoResult
     | Raises e => Raise (translated e)
     end,
     self1,
     tr1 ++ [conn_cursor h; cursor_execute cur command; cursor_close cur]))
    as Hrun.
  { destruct (drv_execute (tr1 ++ [conn_cursor h]) cur command)
      as [[]|e] eqn:Hex.
    - unfold _execCommand. rewrite bind_get_self.
      unfold ensure_connected in Hens. rewrite bind_get_self in Hens.
      rewrite (bind_Return _ _ _ _ _ _ _ Hens).
      rewrite (bind_Return _ _ _ _ _ _ _ (the_conn_Some _ tr1 _ Hc)).
      rewrite (bind_Return _ _ _ _ _ _ _ (call_Returns _ _ _ _ _ Hcur)).
      unfold try_finally, try_except.
      rewrite (bind_Return _ _ _ _ tt self1
                 ((tr1 ++ [conn_cursor h]) ++ [cursor_execute cur command])).
      2:{ by rewrite (call_Returns _ _ _ _ _ Hex). }
      unfold ret, call. rewrite <- !app_assoc. cbn [app]. by rewrite Hclose.
    - by rewrite (_execCommand_execute_raises command Rows0 _ _ _ _ _ _ _
                    Hens Hc Hcur Hex), Hclose. }
  unfold execCommand0, bind. rewrite Hrun.
  by destruct (drv_execute (tr1 ++ [conn_cursor h]) cur command).
Qed.

(** The kinds the operations absorb come from one driver code each. *)
Lemma absorbed_kinds code :
  (_getErrCode code = DbException.DB_EXISTS ↔ code = 1007) ∧
  (_getErrCode code = DbException.DB_DOES_NOT_EXIST ↔ code = 1008) ∧
  (_getErrCode code = DbException.TB_EXISTS ↔ code = 1050) ∧
  (_getErrCode code = DbException.TB_DOES_NOT_EXIST ↔ code = 1051).
Proof.
  destruct (_getErrCode_cases code)
    as [[-> ->]|[[-> ->]|[[-> ->]|[[-> ->]|[[Hc ->]|[Hn ->]]]]]];
    repeat split; try done; intros ->; try done.
  all: try (rewrite !elem_of_cons, elem_of_nil in Hc; lia).
  all: by vm_compute in Hn.
Qed.

(** C7.  Each of [createDb] (with a name), [dropDb], [createTable] and
    [dropTable] runs its statement through [execCommand0] and ends as the
    statement ended, except that a [DbException] of exactly the kind
    DB_EXISTS, DB_DOES_NOT_EXIST, TB_EXISTS, TB_DOES_NOT_EXIST respectively
    is absorbed when [mayExist] is set, respectively [mustExist] is cleared:
    then the operation returns.  Every other exception, and that one when
    the toggle forbids it, reaches the caller.  On a ready connection the
    statement is executed on a cursor of the handle, and the kind absorbed
    is the kind of one driver code: 1007, 1008, 1050, 1051. *)
Theorem schema_operations_absorb :
  (∀ self tr name mayExist,
     createDb (Some name) mayExist self tr =
     let '(r, self', tr') :=
       execCommand0 ("CREATE DATABASE `" +:+ name +:+ "`") self tr in
     (absorb DbException.DB_EXISTS mayExist r, self', tr')) ∧
  (∀ self tr dbName mustExist,
     dropDb dbName mustExist self tr =
     let '(r, self', tr') :=
       execCommand0 ("DROP DATABASE `" +:+ str_of_name dbName +:+ "`") self tr in
     (absorb DbException.DB_DOES_NOT_EXIST (negb mustExist) r, self', tr')) ∧
  (∀ self tr tableName tableSchema dbName mayExist,
     createTable tableName tableSchema dbName mayExist self tr =
     let '(r, self', tr') :=
       execCommand0
         ("CREATE TABLE "
            +:+ match dbName with
                | Some name => "`" +:+ name +:+ "`."
                | None => EmptyString
                end
            +:+ "`" +:+ tableName +:+ "` " +:+ tableSchema) self tr in
     (absorb DbException.TB_EXISTS mayExist r, self', tr')) ∧
  (∀ self tr tableName dbName mustExist,
     dropTable tableName dbName mustExist self tr =
     let '(r, self', tr') :=
       execCommand0
         ("DROP TABLE "
            +:+ match dbName with
                | Some name => "`" +:+ name +:+ "`."
                | None => EmptyString
                end
            +:+ "`" +:+ tableName +:+ "`") self tr in
     (absorb DbException.TB_DOES_NOT_EXIST (negb mustExist) r, self', tr')) ∧
  (∀ command self self1 tr tr1 h cur,
     ensure_connected self tr = (Return tt, self1, tr1) →
     _conn self1 = Some h →
     drv_cursor tr1 h = Returns cur →
     drv_cursor_close (tr1 ++ [conn_cursor h; cursor_execute cur command]) cur
       = Returns tt →
     execCommand0 command self tr =
       (match drv_execute (tr1 ++ [conn_cursor h]) cur command with
        | Returns _ => Return tt
        | Raises e => Raise (translated e)
        end,
        self1,
        tr1 ++ [conn_cursor h; cursor_execute cur command; cursor_close cur])) ∧
  (∀ code,
     (_getErrCode code = DbException.DB_EXISTS ↔ code = 1007) ∧
     (_getErrCode code = DbException.DB_DOES_NOT_EXIST ↔ code = 1008) ∧
     (_getErrCode code = DbException.TB_EXISTS ↔ code = 1050) ∧
     (_getErrCode code = DbException.TB_DOES_NOT_EXIST ↔ code = 1051)).
Proof.
  split; [intros; apply try_absorb|].
  split; [intros; apply try_absorb|].
  split; [intros; apply try_absorb|].
  split; [intros; apply try_absorb|].
  split; [apply execCommand0_ready | apply absorbed_kinds].
Qed.

(** C10.  [createDb] with [None] for the name raises
    [DbException(INVALID_DB_NAME)] with no call to the driver and the
    object as it was; [dbExists] with [None] returns False with no call to
    the driver. *)
Theorem absent_database_name (mayExist : bool) (self : Db) (tr : trace) :
  createDb None mayExist self tr =
    (Raise (DbException DbException.INVALID_DB_NAME ["<None>"]), self, tr) ∧
  dbExists None self tr = (Return false, self, tr).
Proof. split; reflexivity. Qed.

End Schema.

Lemma schema_operations_absorb_witness :
  createDb (drv := constant_driver (Returns 7%nat) (Returns tt) db_exists_error)
    (Some "d") true example_db [] =
  (Return tt, with_conn (Some 7%nat) example_db,
   [MySQLdb_connect (_kwargs example_db); conn_cursor 7%nat;
    cursor_execute 1%nat "CREATE DATABASE `d`"; cursor_close 1%nat]).
Proof.
  pose proof (proj1 (schema_operations_absorb
                (drv := constant_driver (Returns 7%nat) (Returns tt)
                          db_exists_error))
                example_db [] "d" true) as H.
  exact H.
Defined.

(** The four operations on a server that answers "exists" or "does not
    exist". *)
Example createDb_exists_forbidden :
  createDb (drv := constant_driver (Returns 7%nat) (Returns tt) db_exists_error)
    (Some "d") false example_db [] =
  (Raise (DbException DbException.DB_EXISTS
            ["MySQL error 1007: Can't create database 'd'; database exists"]),
   with_conn (Some 7%nat) example_db,
   [MySQLdb_connect (_kwargs example_db); conn_cursor 7%nat;
    cursor_execute 1%nat "CREATE DATABASE `d`"; cursor_close 1%nat]).
Proof. vm_compute. reflexivity. Qed.

Example dropDb_missing_permitted :
  dropDb (drv := constant_driver (Returns 7%nat) (Returns tt) db_missing_error)
    (Some "d") false example_db [] =
  (Return tt, with_conn (Some 7%nat) example_db,
   [MySQLdb_connect (_kwargs example_db); conn_cursor 7%nat;
    cursor_execute 1%nat "DROP DATABASE `d`"; cursor_close 1%nat]).
Proof. vm_compute. reflexivity. Qed.

Example dropDb_missing_forbidden :
  (dropDb (drv := constant_driver (Returns 7%nat) (Returns tt) db_missing_error)
     (Some "d") true example_db []).1.1 =
  Raise (DbException DbException.DB_DOES_NOT_EXIST
           ["MySQL error 1008: Can't drop database 'd'; database doesn't exist"]).
Proof. vm_compute. reflexivity. Qed.

Example createTable_other_kind_propagates :
  (createTable (drv := constant_driver (Returns 7%nat) (Returns tt) db_exists_error)
     "t" "(i int)" (Some "d") true example_db []).1.1 =
  Raise (DbException DbException.DB_EXISTS
           ["MySQL error 1007: Can't create database 'd'; database exists"]).
Proof. vm_compute. reflexivity. Qed.

Example createDb_server_down :
  createDb (drv := constant_driver refused (Returns tt) (Returns tt))
    (Some "d") true example_db [] =
  (Raise (DbException DbException.SERVER_CONNECT
            ["MySQL error 2003: Can't connect to MySQL server on '127.0.0.1' (111)"]),
   example_db,
   [MySQLdb_connect (_kwargs example_db); sleep 2;
    MySQLdb_connect (_kwargs example_db); sleep 2;
    MySQLdb_connect (_kwargs example_db)]).
Proof. vm_compute. reflexivity. Qed.

(** ** Dictionaries *)

Lemma dict_get_del_ne k k' dflt d :
  k ≠ k' → dict_get k dflt (dict_del k' d) = dict_get k dflt d.
Proof.
  intros Hne. unfold dict_del.
  induction d as [|[k0 v] d IH]; [done|].
  rewrite filter_cons. cbn [fst dict_get].
  destruct (decide (k0 ≠ k')) as [Hk|Hk]; cbn [dict_get].
  - by rewrite IH.
  - rewrite IH. destruct (decide (k0 = k)); [|done].
    subst. exfalso. apply Hk. done.
Qed.

Lemma dict_get_app_last k dflt d v :
  dict_in k d = false → dict_get k dflt (d ++ [(k, v)]) = v.
Proof.
  unfold dict_in. induction d as [|[k0 v0] d IH]; cbn.
  - by rewrite decide_True.
  - intros [Hk Hd]%orb_false_elim. apply bool_decide_eq_false in Hk.
    rewrite decide_False by done. by apply IH.
Qed.

Lemma dict_get_app_other k k' dflt d v :
  k ≠ k' → dict_get k dflt (d ++ [(k', v)]) = dict_get k dflt d.
Proof.
  intros Hne. induction d as [|[k0 v0] d IH]; cbn.
  - by rewrite decide_False.
  - by rewrite IH.
Qed.

Lemma dict_get_set_eq k dflt v d : dict_get k dflt (dict_set k v d) = v.
Proof.
  unfold dict_set. destruct (dict_in k d) eqn:Hin.
  - unfold dict_in in Hin. induction d as [|[k0 v0] d IH]; [done|].
    cbn in *. destruct (decide (k0 = k)) as [->|Hk]; cbn.
    + by rewrite decide_True.
    + rewrite decide_False by done. apply IH.
      by rewrite bool_decide_eq_false_2 in Hin.
  - by apply dict_get_app_last.
Qed.

Lemma dict_get_set_ne k k' dflt v d :
  k ≠ k' → dict_get k dflt (dict_set k' v d) = dict_get k dflt d.
Proof.
  intros Hne. unfold dict_set. destruct (dict_in k' d).
  - induction d as [|[k0 v0] d IH]; [done|]. cbn.
    destruct (decide (k0 = k')) as [->|Hk]; cbn.
    + rewrite !decide_False by done. apply IH.
    + by rewrite IH.
  - by apply dict_get_app_other.
Qed.

Lemma keys_dict_del k0 k d :
  k0 ∈ keys (dict_del k d) ↔ k0 ∈ keys d ∧ k0 ≠ k.
Proof.
  unfold keys, dict_del. rewrite !list_elem_of_fmap. split.
  - intros [[k1 v] [-> [Hne Hin]%list_elem_of_filter]]. split; [|done].
    by exists (k1, v).
  - intros [[[k1 v] [-> Hin]] Hne]. exists (k1, v). split; [done|].
    by apply list_elem_of_filter.
Qed.

(** ** The constructor *)

(** The loop over the keys stops at the first one that is not a connect
    keyword. *)
Lemma check_connect_args_outcome (d : dict) :
  (check_connect_args d = Returns tt ∧
   ∀ k, k ∈ keys d → is_Some (_connectArgNameMap !! k)) ∨
  (∃ k, k ∈ keys d ∧ _connectArgNameMap !! k = None ∧
        check_connect_args d =
          Raises (DbException DbException.INVALID_CONN_INFO [repr k])).
Proof.
  induction d as [|[k v] d IH]; cbn [check_connect_args].
  - left. split; [done|]. intros k Hk. by apply elem_of_nil in Hk.
  - destruct (bool_decide (is_Some (_connectArgNameMap !! k))) eqn:Hk.
    + apply bool_decide_eq_true in Hk.
      destruct IH as [[-> Hall]|(k' & Hin & Hnone & ->)].
      * left. split; [done|]. intros k' [->|Hin]%elem_of_cons; auto.
      * right. exists k'. split; [|done]. by apply elem_of_cons; right.
    + apply bool_decide_eq_false in Hk. right. exists k.
      split; [by apply elem_of_cons; left|]. split; [|done].
      by apply eq_None_not_Some.
Qed.

(** What the constructor stores, read off a successful construction. *)
Lemma __init___Returns (kwargs : dict) (self : Db) :
  __init__ kwargs = Returns self →
  let kw0 := dict_del "maxRetryCount" (dict_del "sleepLen" kwargs) in
  let kw1 := if dict_in "read_default_file" kw0
             then dict_set "read_default_group" (VStr "mysql") kw0 else kw0 in
  let kw2 := if bool_decide (dict_get "host" (VStr EmptyString) kw1
                             = VStr "localhost")
             then dict_set "host" (VStr "127.0.0.1") kw1 else kw1 in
  check_connect_args kw0 = Returns tt ∧
  _conn self = None ∧
  _sleepLen self = dict_get "sleepLen" (VInt 3) kwargs ∧
  py_one_plus (dict_get "maxRetryCount" (VInt 0) (dict_del "sleepLen" kwargs))
    = Returns (_attemptMaxNo self) ∧
  (_kwargs self = kw2 ∨
   ∃ port, _kwargs self = dict_set "port" (VInt port) kw2).
Proof.
  unfold __init__, dict_pop. cbn zeta.
  destruct (py_one_plus _) as [a|]; [|discriminate]. cbn [answer_bind].
  destruct (check_connect_args _) as [[]|]; [|discriminate]. cbn [answer_bind].
  set (kw0 := dict_del "maxRetryCount" (dict_del "sleepLen" kwargs)).
  set (kw1 := if dict_in "read_default_file" kw0 then _ else _).
  set (kw2 := if bool_decide _ then _ else _).
  destruct (dict_in "port" kw2).
  - destruct (py_int _) as [port|]; [|discriminate]. cbn [answer_bind].
    intros [= <-]. cbn. eauto 10.
  - cbn [answer_bind]. intros [= <-]. cbn. eauto 10.
Qed.

Lemma __init___host (kwargs : dict) (self : Db) :
  __init__ kwargs = Returns self →
  dict_get "host" (VStr EmptyString) (_kwargs self) =
  if bool_decide (dict_get "host" (VStr EmptyString) kwargs = VStr "localhost")
  then VStr "127.0.0.1"
  else dict_get "host" (VStr EmptyString) kwargs.
Proof.
  intros Hinit. apply __init___Returns in Hinit.
  destruct Hinit as (_ & _ & _ & _ & Hkw). cbn zeta in Hkw.
  assert (∀ kw0, dict_get "host" (VStr EmptyString)
                   (if dict_in "read_default_file" kw0
                    then dict_set "read_default_group" (VStr "mysql") kw0
                    else kw0)
                 = dict_get "host" (VStr EmptyString) kw0) as Hrdg.
  { intros kw0. destruct (dict_in _ kw0); [|done].
    by rewrite dict_get_set_ne. }
  assert (dict_get "host" (VStr EmptyString)
            (dict_del "maxRetryCount" (dict_del "sleepLen" kwargs))
          = dict_get "host" (VStr EmptyString) kwargs) as Hdel
    by (by rewrite !dict_get_del_ne).
  destruct Hkw as [->|[port ->]]; rewrite ?dict_get_set_ne by done;
    rewrite Hrdg, Hdel;
    (destruct (bool_decide _); [by rewrite dict_get_set_eq|]);
    by rewrite Hrdg, Hdel.
Qed.

(** The retry policy the constructor stores: [sleepLen] as given (3 by
    default) and one attempt more than [maxRetryCount] (0 by default). *)
Lemma __init___retry_policy (kwargs : dict) (self : Db) (retries : Z) :
  __init__ kwargs = Returns self →
  dict_get "maxRetryCount" (VInt 0) kwargs = VInt retries →
  _attemptMaxNo self = 1 + retries ∧
  _sleepLen self = dict_get "sleepLen" (VInt 3) kwargs.
Proof.
  intros Hinit Hr. apply __init___Returns in Hinit.
  destruct Hinit as (_ & _ & Hs & Ha & _). split; [|done].
  rewrite dict_get_del_ne, Hr in Ha by done. cbn in Ha. congruence.
Qed.

(** ** Every connection attempt is made with [_kwargs] *)

Section KeepsKwargs.
Context {drv : Driver}.

Lemma connects_with_refl K tr : connects_with K tr tr.
Proof.
  exists []. split; [by rewrite app_nil_r|].
  intros kw Hin. by apply elem_of_nil in Hin.
Qed.

Lemma connects_with_trans K tr0 tr1 tr2 :
  connects_with K tr0 tr1 → connects_with K tr1 tr2 → connects_with K tr0 tr2.
Proof.
  intros (evs1 & -> & H1) (evs2 & -> & H2). exists (evs1 ++ evs2).
  split; [by rewrite app_assoc|].
  intros kw [Hin|Hin]%elem_of_app; auto.
Qed.

Lemma connects_with_snoc K tr ev :
  (∀ kw, ev = MySQLdb_connect kw → kw = K) → connects_with K tr (tr ++ [ev]).
Proof.
  intros Hev. exists [ev]. split; [done|].
  intros kw Hin%list_elem_of_singleton. by apply Hev.
Qed.

Lemma keeps_ret {A} K (a : A) : keeps_kwargs K (ret a).
Proof. intros self tr HK. split; [done|apply connects_with_refl]. Qed.

Lemma keeps_raise {A} K e : keeps_kwargs K (raise (A := A) e).
Proof. intros self tr HK. split; [done|apply connects_with_refl]. Qed.

Lemma keeps_diverge {A} K : keeps_kwargs K (diverge (A := A)).
Proof. intros self tr HK. split; [done|apply connects_with_refl]. Qed.

Lemma keeps_set_conn K c : keeps_kwargs K (set_conn c).
Proof. intros self tr HK. split; [done|apply connects_with_refl]. Qed.

Lemma keeps_call {A} K ev (ans : trace → answer A) :
  (∀ kw, ev = MySQLdb_connect kw → kw = K) → keeps_kwargs K (call ev ans).
Proof.
  intros Hev self tr HK. unfold call.
  destruct (ans tr); (split; [done|by apply connects_with_snoc]).
Qed.

Lemma keeps_bind {A B} K (m : M A) (k : A → M B) :
  keeps_kwargs K m → (∀ a, keeps_kwargs K (k a)) → keeps_kwargs K (bind m k).
Proof.
  intros Hm Hk self tr HK. specialize (Hm self tr HK). unfold bind.
  destruct (m self tr) as [[[a|e|] self'] tr']; cbn in *; [|done..].
  destruct Hm as [HK' Htr]. destruct (Hk a self' tr' HK') as [HK'' Htr'].
  split; [done|]. by eapply connects_with_trans.
Qed.

Lemma keeps_bind_get_self {B} K (k : Db → M B) :
  (∀ self, _kwargs self = K → keeps_kwargs K (k self)) →
  keeps_kwargs K (bind get_self k).
Proof. intros Hk self tr HK. rewrite bind_get_self. by apply Hk. Qed.

Lemma keeps_try_except {A} K (m : M A) (h : exn → M A) :
  keeps_kwargs K m → (∀ e, keeps_kwargs K (h e)) →
  keeps_kwargs K (try_except m h).
Proof.
  intros Hm Hh self tr HK. specialize (Hm self tr HK). unfold try_except.
  destruct (m self tr) as [[[a|e|] self'] tr']; cbn in *; [done| |done].
  destruct Hm as [HK' Htr]. destruct (Hh e self' tr' HK') as [HK'' Htr'].
  split; [done|]. by eapply connects_with_trans.
Qed.

Lemma keeps_try_except_as {A} K cls (m : M A) (h : exn → M A) :
  keeps_kwargs K m → (∀ e, keeps_kwargs K (h e)) →
  keeps_kwargs K (try_except_as cls m h).
Proof.
  intros Hm Hh. apply keeps_try_except; [done|].
  intros e. destruct (cls e); [done|apply keeps_raise].
Qed.

Lemma keeps_try_finally {A} K (m : M A) (f : M unit) :
  keeps_kwargs K m → keeps_kwargs K f → keeps_kwargs K (try_finally m f).
Proof.
  intros Hm Hf self tr HK. specialize (Hm self tr HK). unfold try_finally.
  destruct (m self tr) as [[r self'] tr']; cbn in *.
  destruct Hm as [HK' Htr]. specialize (Hf self' tr' HK').
  destruct r; [| |done];
    destruct (f self' tr') as [[[[]|e'|] self''] tr'']; cbn in *;
    destruct Hf as [HK'' Htr'];
    (split; [done|by eapply connects_with_trans]).
Qed.

Lemma keeps__handleException {A} K e : keeps_kwargs K (_handleException (A := A) e).
Proof.
  intros self tr HK. rewrite _handleException_raises.
  split; [done|apply connects_with_refl].
Qed.

Lemma keeps_py_sleep K v : keeps_kwargs K (py_sleep v).
Proof.
  destruct v as [|b|n|]; cbn; try apply keeps_raise.
  - by apply keeps_call.
  - destruct (n <? 0)%Z; [apply keeps_raise|by apply keeps_call].
Qed.

End KeepsKwargs.

Section KeepsKwargsMethods.
Context {drv : Driver}.

Lemma keeps_the_conn K : keeps_kwargs K the_conn.
Proof.
  unfold the_conn. apply keeps_bind_get_self. intros self HK.
  destruct (_conn self); [apply keeps_ret|apply keeps_raise].
Qed.

Lemma keeps_isConnected K : keeps_kwargs K isConnected.
Proof.
  unfold isConnected. apply keeps_bind_get_self. intros self HK.
  destruct (_conn self) as [h|]; [|apply keeps_ret].
  apply keeps_try_except_as.
  - apply keeps_bind; [by apply keeps_call|]. intros. apply keeps_ret.
  - intros e. destruct e as [cls code m| | |]; try apply keeps_raise.
    destruct (_isConnectionError code); [|apply keeps_raise].
    apply keeps_bind; [apply keeps_raise|]. intros.
    apply keeps_bind; [apply keeps_set_conn|]. intros. apply keeps_ret.
Qed.

Lemma keeps__doConnect_loop K fuel : ∀ n, keeps_kwargs K (_doConnect_loop fuel n).
Proof.
  induction fuel as [|fuel IH]; intros n; cbn [_doConnect_loop];
    [apply keeps_diverge|].
  apply keeps_bind_get_self. intros self HK. apply keeps_bind.
  - apply keeps_try_except.
    + apply keeps_bind; [apply keeps_call; by intros kw [= <-]|]. intros h.
      apply keeps_bind; [apply keeps_set_conn|]. intros. apply keeps_ret.
    + intros e. destruct e as [cls code m| | |];
        try apply keeps__handleException.
      destruct (_ || _); [apply keeps_raise|].
      apply keeps_bind; [|intros; apply keeps_ret].
      destruct (py_gt_zero _); [apply keeps_py_sleep|apply keeps_ret].
  - intros [|]; [apply keeps_ret|apply IH].
Qed.

Lemma keeps__doConnect K : keeps_kwargs K _doConnect.
Proof.
  unfold _doConnect. apply keeps_bind_get_self. intros self HK.
  apply keeps__doConnect_loop.
Qed.

Lemma keeps_connect K dbName : keeps_kwargs K (connect dbName).
Proof.
  unfold connect. apply keeps_bind; [apply keeps_isConnected|].
  intros connected. apply keeps_bind.
  - destruct (negb connected); [apply keeps__doConnect|apply keeps_ret].
  - intros _. destruct dbName as [name|]; [|apply keeps_ret].
    apply keeps_try_except; [|intros; apply keeps__handleException].
    apply keeps_bind; [apply keeps_the_conn|]. intros h. by apply keeps_call.
Qed.

Lemma keeps__execCommand K command nRowsRet :
  keeps_kwargs K (_execCommand command nRowsRet).
Proof.
  unfold _execCommand. apply keeps_bind_get_self. intros self HK.
  apply keeps_bind.
  { destruct (_conn self); [apply keeps_ret|apply keeps_connect]. }
  intros _. apply keeps_bind; [apply keeps_the_conn|]. intros h.
  apply keeps_bind; [by apply keeps_call|]. intros cur.
  apply keeps_try_finally; [|by apply keeps_call].
  apply keeps_bind.
  { apply keeps_try_except; [by apply keeps_call|].
    intros; apply keeps__handleException. }
  intros _. destruct nRowsRet; [apply keeps_ret|..];
    (apply keeps_bind; [by apply keeps_call|intros; apply keeps_ret]).
Qed.

(** What reaches the driver's connect through a method that keeps
    [_kwargs]. *)
Lemma keeps_kwargs_connect_events {A} (m : M A) self tr kw :
  keeps_kwargs (_kwargs self) m →
  MySQLdb_connect kw ∈ (m self tr).2 →
  MySQLdb_connect kw ∈ tr ∨ kw = _kwargs self.
Proof.
  intros Hm Hin. destruct (Hm self tr eq_refl) as [_ (evs & Heq & Hevs)].
  rewrite Heq in Hin. apply elem_of_app in Hin as [Hin|Hin]; auto.
Qed.

End KeepsKwargsMethods.

(** ** The constructor: host and keys *)

(** C8.  When construction succeeds, a host given as the string
    "localhost" is stored as "127.0.0.1"; the stored host is never
    "localhost"; and every call to the driver's connect that [connect] or
    [_execCommand] makes on an object holding the constructed [_kwargs] is
    given a host other than "localhost". *)
Theorem localhost_becomes_loopback (kwargs : dict) (self : Db) :
  __init__ kwargs = Returns self →
  (dict_get "host" (VStr EmptyString) kwargs = VStr "localhost" →
   dict_get "host" (VStr EmptyString) (_kwargs self) = VStr "127.0.0.1") ∧
  dict_get "host" (VStr EmptyString) (_kwargs self) ≠ VStr "localhost" ∧
  (∀ (drv : Driver) (db : Db) (tr : trace) (kw : dict),
     _kwargs db = _kwargs self →
     (∀ dbName, MySQLdb_connect kw ∈ (connect dbName db tr).2 →
        MySQLdb_connect kw ∈ tr ∨
        dict_get "host" (VStr EmptyString) kw ≠ VStr "localhost") ∧
     (∀ command nRowsRet,
        MySQLdb_connect kw ∈ (_execCommand command nRowsRet db tr).2 →
        MySQLdb_connect kw ∈ tr ∨
        dict_get "host" (VStr EmptyString) kw ≠ VStr "localhost")).
Proof.
  intros Hinit. pose proof (__init___host _ _ Hinit) as Hhost.
  assert (dict_get "host" (VStr EmptyString) (_kwargs self) ≠ VStr "localhost")
    as Hne.
  { rewrite Hhost. destruct (bool_decide _) eqn:Hb; [done|].
    by apply bool_decide_eq_false in Hb. }
  split; [|split; [done|]].
  - intros Hl. rewrite Hhost. by rewrite bool_decide_eq_true_2.
  - intros drv db tr kw HK. split.
    + intros dbName Hin.
      destruct (keeps_kwargs_connect_events (connect dbName) db tr kw
                  (keeps_connect _ _) Hin) as [ ? | -> ]; [by left|].
      right. by rewrite HK.
    + intros command nRowsRet Hin.
      destruct (keeps_kwargs_connect_events (_execCommand command nRowsRet)
                  db tr kw (keeps__execCommand _ _ _) Hin) as [ ? | -> ];
        [by left|].
      right. by rewrite HK.
Qed.

Lemma localhost_becomes_loopback_witness :
  dict_get "host" (VStr EmptyString) (_kwargs example_db) = VStr "127.0.0.1".
Proof.
  refine (proj1 (localhost_becomes_loopback example_kwargs example_db _) _);
    vm_compute; reflexivity.
Defined.

Lemma py_one_plus_Raises v e :
  py_one_plus v = Raises e → ∃ t m, e = PyExc t m.
Proof. destruct v; intros [= <-]; eauto. Qed.

Lemma py_int_Raises v e : py_int v = Raises e → ∃ t m, e = PyExc t m.
Proof.
  destruct v as [| | |s]; cbn; try (intros [= <-]; eauto).
  destruct (int_of_str s); intros [= <-]; eauto.
Qed.

(** C9.  Given a [maxRetryCount] that is an integer when present: if some
    key other than "sleepLen" and "maxRetryCount" is not a key of
    [_connectArgNameMap], construction raises
    [DbException(INVALID_CONN_INFO)] whose message is the [repr] of such a
    key (the first one the loop meets).  And whatever the values are, if
    every key is "sleepLen", "maxRetryCount" or a key of
    [_connectArgNameMap], construction raises no
    [DbException(INVALID_CONN_INFO)]. *)
Theorem unknown_key_rejected (kwargs : dict) :
  ((∃ n, dict_get "maxRetryCount" (VInt 0) kwargs = VInt n) →
   (∃ k, k ∈ keys kwargs ∧ k ≠ "sleepLen" ∧ k ≠ "maxRetryCount" ∧
         _connectArgNameMap !! k = None) →
   ∃ k, k ∈ keys kwargs ∧ k ≠ "sleepLen" ∧ k ≠ "maxRetryCount" ∧
        _connectArgNameMap !! k = None ∧
        __init__ kwargs =
          Raises (DbException DbException.INVALID_CONN_INFO [repr k])) ∧
  ((∀ k, k ∈ keys kwargs →
         k = "sleepLen" ∨ k = "maxRetryCount" ∨
         is_Some (_connectArgNameMap !! k)) →
   ∀ msgs, __init__ kwargs ≠
           Raises (DbException DbException.INVALID_CONN_INFO msgs)).
Proof.
  split.
  - intros [n Hn] (k & Hin & Hs & Hm & Hnone).
    unfold __init__, dict_pop. cbn zeta.
    rewrite dict_get_del_ne by done. rewrite Hn. cbn [py_one_plus answer_bind].
    destruct (check_connect_args_outcome
                (dict_del "maxRetryCount" (dict_del "sleepLen" kwargs)))
      as [[_ Hall]|(k' & Hin' & Hnone' & ->)].
    + exfalso. assert (is_Some (_connectArgNameMap !! k)) as [x Hx].
      { apply Hall. apply keys_dict_del. split; [|done].
        by apply keys_dict_del. }
      congruence.
    + apply keys_dict_del in Hin' as [Hin' Hm'].
      apply keys_dict_del in Hin' as [Hin' Hs'].
      exists k'. by cbn.
  - intros Hall msgs. unfold __init__, dict_pop. cbn zeta.
    destruct (py_one_plus _) as [a|e] eqn:Hp; cbn [answer_bind].
    2:{ apply py_one_plus_Raises in Hp as (t & m & ->). discriminate. }
    destruct (check_connect_args_outcome
                (dict_del "maxRetryCount" (dict_del "sleepLen" kwargs)))
      as [[-> _]|(k' & Hin' & Hnone' & _)].
    + cbn [answer_bind].
      destruct (dict_in "port" _); cbn [answer_bind]; [|discriminate].
      destruct (py_int _) as [port|e] eqn:Hi; cbn [answer_bind];
        [discriminate|].
      apply py_int_Raises in Hi as (t & m & ->). discriminate.
    + exfalso. apply keys_dict_del in Hin' as [Hin' Hm'].
      apply keys_dict_del in Hin' as [Hin' Hs'].
      destruct (Hall k' Hin') as [?|[?|[x Hx]]]; congruence.
Qed.

Lemma unknown_key_rejected_witness :
  ∃ k, k ∈ keys [("host", VStr "db.example.org"); ("socket", VStr "/tmp/s");
                 ("maxRetryCount", VInt 2)] ∧
       k ≠ "sleepLen" ∧ k ≠ "maxRetryCount" ∧
       _connectArgNameMap !! k = None ∧
       __init__ [("host", VStr "db.example.org"); ("socket", VStr "/tmp/s");
                 ("maxRetryCount", VInt 2)] =
         Raises (DbException DbException.INVALID_CONN_INFO [repr k]).
Proof.
  refine (proj1 (unknown_key_rejected
                   [("host", VStr "db.example.org"); ("socket", VStr "/tmp/s");
                    ("maxRetryCount", VInt 2)]) _ _).
  - exists 2. reflexivity.
  - exists "socket". split; [|split; [done|split; [done|reflexivity]]].
    apply list_elem_of_In. cbn. tauto.
Defined.

Example init_unknown_key :
  __init__ [("host", VStr "db.example.org"); ("socket", VStr "/tmp/s");
            ("maxRetryCount", VInt 2)] =
  Raises (DbException DbException.INVALID_CONN_INFO ["'socket'"]).
Proof. vm_compute. reflexivity. Qed.

Example init_non_numeric_retry_count :
  __init__ [("socket", VStr "/tmp/s"); ("maxRetryCount", VStr "many")] =
  Raises (PyExc "TypeError" "unsupported operand type(s) for +: 'int' and 'str'").
Proof. vm_compute. reflexivity. Qed.

(** ** disconnect *)

Section Disconnect.
Context {drv : Driver}.

(** [disconnect] always returns and leaves the object without a handle,
    whatever the driver's close answers; without a handle it makes no
    call. *)
Lemma disconnect_drops_handle (self : Db) (tr : trace) :
  disconnect self tr =
    (Return tt, with_conn None self,
     match _conn self with
     | Some h => tr ++ [conn_close h]
     | None => tr
     end).
Proof.
  unfold disconnect. rewrite bind_get_self.
  destruct self as [[h|] kw s a]; cbn [_conn]; [|reflexivity].
  unfold try_except, bind, call, set_conn, ret.
  by destruct (drv_close tr h) as [[]|e].
Qed.

Lemma disconnect_idempotent (self : Db) (tr : trace) :
  bind disconnect (fun _ => disconnect) self tr = disconnect self tr.
Proof.
  unfold bind at 1. rewrite (disconnect_drops_handle self tr).
  by rewrite disconnect_drops_handle.
Qed.

End Disconnect.

(** * Further properties of the module *)

(** ** The classifier and the messages *)

(** X1.  Only the four codes 2002, 2003, 2006 and 2013 are connection errors:
    no other driver code makes [_doConnect] try again. *)
Theorem connection_error_codes_exactly (c : Z) :
  _isConnectionError c = true ↔ c = 2002 ∨ c = 2003 ∨ c = 2006 ∨ c = 2013.
Proof.
  rewrite _isConnectionError_codes, !elem_of_cons, elem_of_nil. tauto.
Qed.

Lemma _errorMessages_cases (c : Z) :
  _errorMessages !! c = None ∨
  ∃ m, _errorMessages !! c = Some m ∧ m ≠ EmptyString.
Proof.
  unfold _errorMessages. cbn [list_to_map foldr uncurry].
  rewrite !lookup_insert, lookup_empty.
  repeat (case_decide; [right; eexists; split; [reflexivity|discriminate]|]).
  by left.
Qed.

(** X2.  [str(e)] of a [DbException]: for a code of the message table, the
    table's message followed by the ancillary messages, each in
    parentheses; for any other code the call itself fails with
    [AttributeError].  Every kind the classifier produces is in the
    table. *)
Theorem DbException_str (errCode : Z) (messages : list string) :
  __str__ errCode messages =
    match _errorMessages !! errCode with
    | Some m =>
        Returns (match messages with
                 | [] => m
                 | _ => m +:+ " (" +:+ String.concat "), (" messages +:+ ")"
                 end)
    | None =>
        Raises (PyExc "AttributeError"
                  "'DbException' object has no attribute 'errorCode'")
    end
  ∧ (∀ code, is_Some (_errorMessages !! _getErrCode code)).
Proof.
  split.
  - unfold __str__.
    destruct (_errorMessages_cases errCode) as [->|(m & -> & Hm)]; [done|].
    by rewrite bool_decide_eq_false_2.
  - intros code.
    destruct (_getErrCode_cases code)
      as [[_ ->]|[[_ ->]|[[_ ->]|[[_ ->]|[[_ ->]|[_ ->]]]]]];
      eexists; vm_compute; reflexivity.
Qed.

Example str_of_SERVER_CONNECT :
  __str__ DbException.SERVER_CONNECT ["MySQL error 2003: refused"] =
  Returns "Unable to connect to the database server. (MySQL error 2003: refused)".
Proof. vm_compute. reflexivity. Qed.

Example str_of_two_messages :
  __str__ DbException.INTERNAL ["a"; "b"] = Returns "Internal error. (a), (b)".
Proof. vm_compute. reflexivity. Qed.

Example str_of_unknown_code :
  __str__ 42 [] =
  Raises (PyExc "AttributeError"
            "'DbException' object has no attribute 'errorCode'").
Proof. vm_compute. reflexivity. Qed.

(** ** The retry loop against an arbitrary server *)

Section RetryLoop.
Context {drv : Driver}.

Lemma filter_connect_connect kw l :
  filter is_connect (MySQLdb_connect kw :: l)
  = MySQLdb_connect kw :: filter is_connect l.
Proof. by rewrite filter_cons_True by (cbn; tauto). Qed.

Lemma filter_connect_sleep x l :
  filter is_connect (sleep x :: l) = filter is_connect l.
Proof. by rewrite filter_cons_False by (cbn; tauto). Qed.

Lemma filter_sleep_connect kw l :
  filter is_sleep (MySQLdb_connect kw :: l) = filter is_sleep l.
Proof. by rewrite filter_cons_False by (cbn; tauto). Qed.

Lemma filter_sleep_sleep x l :
  filter is_sleep (sleep x :: l) = sleep x :: filter is_sleep l.
Proof. by rewrite filter_cons_True by (cbn; tauto). Qed.

(** A pause is no event or one [sleep]; when it raises, nothing was
    slept. *)
Lemma pause_shape self tr :
  let m : M unit := if py_gt_zero (_sleepLen self)
                    then py_sleep (_sleepLen self) else ret tt in
  (∃ evs, m self tr = (Return tt, self, tr ++ evs) ∧
          (evs = [] ∨ ∃ x, evs = [sleep x])) ∨
  (∃ e, m self tr = (Raise e, self, tr)).
Proof.
  cbn. destruct (_sleepLen self) as [|[]|z|]; cbn.
  - left. exists []. rewrite app_nil_r. auto.
  - left. exists [sleep 1]. eauto.
  - left. exists []. rewrite app_nil_r. auto.
  - left. destruct (0 <? z)%Z eqn:Hz.
    + assert ((z <? 0)%Z = false) as -> by lia. exists [sleep z]. eauto.
    + exists []. rewrite app_nil_r. auto.
  - right. by eexists.
Qed.

Lemma _doConnect_loop_bounded fuel : ∀ n self tr,
  (Z.to_nat (_attemptMaxNo self - n) < fuel)%nat →
  ∃ evs, (_doConnect_loop fuel n self tr).2 = tr ++ evs ∧
    (1 ≤ length (filter is_connect evs))%nat ∧
    (length (filter is_connect evs)
       ≤ S (Z.to_nat (_attemptMaxNo self - n)))%nat ∧
    (length (filter is_sleep evs) < length (filter is_connect evs))%nat ∧
    Forall (λ ev, is_connect ev || is_sleep ev) evs.
Proof.
  induction fuel as [|fuel IH]; intros n self tr Hfuel; [lia|].
  assert (∃ evs, tr ++ [MySQLdb_connect (_kwargs self)] = tr ++ evs ∧
    (1 ≤ length (filter is_connect evs))%nat ∧
    (length (filter is_connect evs)
       ≤ S (Z.to_nat (_attemptMaxNo self - n)))%nat ∧
    (length (filter is_sleep evs) < length (filter is_connect evs))%nat ∧
    Forall (λ ev, is_connect ev || is_sleep ev) evs) as Hone.
  { exists [MySQLdb_connect (_kwargs self)].
    rewrite filter_connect_connect, filter_sleep_connect. cbn.
    repeat split; try lia. by repeat constructor. }
  destruct (drv_connect tr (_kwargs self)) as [h|e] eqn:He.
  { by rewrite (_doConnect_loop_attempt_returns _ _ _ _ _ He). }
  rewrite (_doConnect_loop_attempt_raises _ _ _ _ _ He).
  destruct e as [cls code m| | |]; try exact Hone.
  destruct (n >=? _attemptMaxNo self)%Z eqn:Hn; [exact Hone|].
  destruct (negb (_isConnectionError code)); [exact Hone|]. cbn [orb].
  destruct (pause_shape self (tr ++ [MySQLdb_connect (_kwargs self)]))
    as [(evp & Hp & Hshape)|[e Hp]]; cbn in Hp.
  - rewrite (bind_Return _ _ _ _ _ _ _ Hp).
    destruct (IH (n + 1)%Z self
                ((tr ++ [MySQLdb_connect (_kwargs self)]) ++ evp))
      as (evs & -> & H1 & H2 & H3 & H4); [lia|].
    exists (MySQLdb_connect (_kwargs self) :: evp ++ evs).
    split; [by rewrite <- !app_assoc|].
    rewrite filter_connect_connect, filter_sleep_connect, !filter_app,
      !length_app. cbn [length].
    destruct Hshape as [->|[x ->]].
    + cbn. repeat split; try lia. by constructor.
    + rewrite filter_connect_sleep, filter_sleep_sleep. cbn.
      repeat split; try lia. by repeat constructor.
  - by rewrite (bind_Raise _ _ _ _ _ _ _ Hp).
Qed.

(** X3.  Whatever the server answers, [_doConnect] ends, having called the
    driver's connect at least once and at most [max 1 _attemptMaxNo]
    times, with fewer sleeps than attempts and no other call. *)
Theorem _doConnect_attempts_bounded (self : Db) (tr : trace) :
  (_doConnect self tr).1.1 ≠ Diverge ∧
  ∃ evs, (_doConnect self tr).2 = tr ++ evs ∧
    (1 ≤ length (filter is_connect evs))%nat ∧
    (length (filter is_connect evs)
       ≤ Z.to_nat (Z.max 1 (_attemptMaxNo self)))%nat ∧
    (length (filter is_sleep evs) < length (filter is_connect evs))%nat ∧
    Forall (λ ev, is_connect ev || is_sleep ev) evs.
Proof.
  split; [apply _doConnect_terminates|].
  unfold _doConnect. rewrite bind_get_self.
  destruct (_doConnect_loop_bounded
              (Z.to_nat (Z.max 1 (_attemptMaxNo self))) 1 self tr)
    as (evs & Heq & H1 & H2 & H3 & H4); [lia|].
  exists evs. repeat split; try done. lia.
Qed.

(** The loop through [k] refusals to a success. *)
Lemma _doConnect_loop_recovers self s h :
  _sleepLen self = VInt s →
  ∀ k fuel n tr,
    (n + Z.of_nat k ≤ _attemptMaxNo self)%Z → (k < fuel)%nat →
    (∀ j, (j < k)%nat → ∃ cls code m,
        drv_connect (tr ++ failed_attempts j s (_kwargs self)) (_kwargs self)
          = Raises (MySQLdb_Error cls code m) ∧
        _isConnectionError code = true) →
    drv_connect (tr ++ failed_attempts k s (_kwargs self)) (_kwargs self)
      = Returns h →
    _doConnect_loop fuel n self tr =
      (Return tt, with_conn (Some h) self,
       tr ++ failed_attempts k s (_kwargs self)
          ++ [MySQLdb_connect (_kwargs self)]).
Proof.
  intros Hs. induction k as [|k IH]; intros fuel n tr Hn Hfuel Hfail Hok;
    (destruct fuel as [|fuel]; [lia|]).
  - cbn [failed_attempts] in *. rewrite app_nil_r in Hok.
    by rewrite (_doConnect_loop_attempt_returns _ _ _ _ _ Hok).
  - destruct (Hfail 0%nat) as (cls & code & m & He & Hcode); [lia|].
    cbn [failed_attempts] in He. rewrite app_nil_r in He.
    rewrite (_doConnect_loop_attempt_raises _ _ _ _ _ He), Hcode.
    assert ((n >=? _attemptMaxNo self)%Z = false) as -> by lia.
    cbn [orb negb]. rewrite Hs. cbn [py_gt_zero].
    assert ((if (0 <? s)%Z then py_sleep (VInt s) else ret ()) self
              (tr ++ [MySQLdb_connect (_kwargs self)])
            = (Return tt, self,
               (tr ++ [MySQLdb_connect (_kwargs self)]) ++ pause s)) as Hp.
    { unfold pause. destruct (0 <? s)%Z eqn:Hpos.
      - cbn [py_sleep]. by assert ((s <? 0)%Z = false) as -> by lia.
      - by rewrite app_nil_r. }
    rewrite (bind_Return _ _ _ _ _ _ _ Hp).
    rewrite (IH fuel (n + 1)%Z); [|lia|lia| |].
    + cbn [failed_attempts].
      by repeat (progress (rewrite <- ?app_assoc; cbn [app])).
    + intros j Hj. destruct (Hfail (S j)) as (c' & code' & m' & He' & Hc');
        [lia|]. exists c', code', m'. split; [|done].
      rewrite <- He'. cbn [failed_attempts].
      by repeat (progress (rewrite <- ?app_assoc; cbn [app])).
    + rewrite <- Hok. cbn [failed_attempts].
      by repeat (progress (rewrite <- ?app_assoc; cbn [app])).
Qed.

(** X4.  When the server refuses [k] attempts with connection errors and
    accepts the next one, and [k] is less than [_attemptMaxNo],
    [_doConnect] returns with the new handle stored, after [k + 1] calls to
    connect, each refused one followed by its pause. *)
Theorem _doConnect_recovers (k : nat) (s : Z) (h : handle)
    (self : Db) (tr : trace) :
  _sleepLen self = VInt s →
  (Z.of_nat k < _attemptMaxNo self)%Z →
  (∀ j, (j < k)%nat → ∃ cls code m,
      drv_connect (tr ++ failed_attempts j s (_kwargs self)) (_kwargs self)
        = Raises (MySQLdb_Error cls code m) ∧
      _isConnectionError code = true) →
  drv_connect (tr ++ failed_attempts k s (_kwargs self)) (_kwargs self)
    = Returns h →
  _doConnect self tr =
    (Return tt, with_conn (Some h) self,
     tr ++ failed_attempts k s (_kwargs self)
        ++ [MySQLdb_connect (_kwargs self)]).
Proof.
  intros Hs Hk Hfail Hok. unfold _doConnect. rewrite bind_get_self.
  apply (_doConnect_loop_recovers self s h Hs); [lia|lia|done|done].
Qed.

(** With [_attemptMaxNo] at most one there is a single attempt: whatever
    the connection attempt raises, [_doConnect] raises its translation
    after that one call and without sleeping. *)
Theorem _doConnect_single_attempt (self : Db) (tr : trace) (e : exn) :
  (_attemptMaxNo self ≤ 1)%Z →
  drv_connect tr (_kwargs self) = Raises e →
  _doConnect self tr =
    (Raise (translated e), self, tr ++ [MySQLdb_connect (_kwargs self)]).
Proof.
  intros HN He. unfold _doConnect. rewrite bind_get_self.
  destruct (_doConnect_fuel self) as [f ->].
  rewrite (_doConnect_loop_attempt_raises _ _ _ _ _ He).
  destruct e; try reflexivity.
  by assert ((1 >=? _attemptMaxNo self)%Z = true) as -> by lia.
Qed.

End RetryLoop.

Lemma _doConnect_recovers_witness :
  _doConnect (drv := flaky_driver 2) example_db [] =
  (Return tt, with_conn (Some 7%nat) example_db,
   [] ++ failed_attempts 2 2 (_kwargs example_db)
      ++ [MySQLdb_connect (_kwargs example_db)]).
Proof.
  refine (_doConnect_recovers (drv := flaky_driver 2) 2 2 7%nat example_db []
            eq_refl _ _ eq_refl).
  - reflexivity.
  - intros j Hj. eexists _, _, _.
    destruct j as [|[|j]]; [split; reflexivity..|lia].
Defined.

Lemma _doConnect_single_attempt_witness :
  _doConnect (drv := constant_driver refused (Returns tt) (Returns tt))
    (mkDb None [("host", VStr "127.0.0.1")] (VInt 3) 1) [] =
  (Raise (DbException DbException.SERVER_CONNECT
            ["MySQL error 2003: Can't connect to MySQL server on '127.0.0.1' (111)"]),
   mkDb None [("host", VStr "127.0.0.1")] (VInt 3) 1,
   [MySQLdb_connect [("host", VStr "127.0.0.1")]]).
Proof.
  refine (_doConnect_single_attempt
            (drv := constant_driver refused (Returns tt) (Returns tt))
            (mkDb None [("host", VStr "127.0.0.1")] (VInt 3) 1) [] _ _ eq_refl).
  cbn. lia.
Defined.

(** ** connect and disconnect *)

Section ConnectMore.
Context {drv : Driver}.

(** The database selection at the end of [connect], run with a handle. *)
Lemma select_db_part (name : string) self tr h :
  _conn self = Some h →
  try_except
    (h <- the_conn ;;
     call (conn_select_db h name) (fun tr => drv_select_db tr h name))
    (fun e => _handleException e) self tr =
  (match drv_select_db tr h name with
   | Returns _ => Return tt
   | Raises e => Raise (translated e)
   end, self, tr ++ [conn_select_db h name]).
Proof.
  intros Hc. unfold try_except.
  rewrite (bind_Return _ _ _ _ _ _ _ (the_conn_Some _ tr _ Hc)).
  unfold call. destruct (drv_select_db tr h name) as [[]|e]; [done|].
  by rewrite _handleException_raises.
Qed.

(** X5.  With a handle whose ping succeeds, [connect] makes no connection
    attempt: it returns at once when no database is named, and otherwise
    selects the database on the same handle.  A selection the driver
    refuses is raised in translated form and the handle is kept. *)
Theorem connect_live_handle (self : Db) (tr : trace) (h : handle) :
  _conn self = Some h →
  drv_ping tr h = Returns tt →
  connect None self tr = (Return tt, self, tr ++ [conn_ping h]) ∧
  ∀ name,
    connect (Some name) self tr =
      (match drv_select_db (tr ++ [conn_ping h]) h name with
       | Returns _ => Return tt
       | Raises e => Raise (translated e)
       end, self, tr ++ [conn_ping h; conn_select_db h name]).
Proof.
  intros Hc Hp.
  assert (isConnected self tr = (Return true, self, tr ++ [conn_ping h]))
    as Hic by (by rewrite (isConnected_probe _ _ _ Hc), Hp).
  split.
  - unfold connect. by rewrite (bind_Return _ _ _ _ _ _ _ Hic).
  - intros name. unfold connect. rewrite (bind_Return _ _ _ _ _ _ _ Hic).
    cbn [negb]. rewrite (bind_Return _ _ _ _ tt self (tr ++ [conn_ping h]))
      by reflexivity.
    rewrite (select_db_part name _ _ _ Hc). by rewrite <- app_assoc.
Qed.

(** X6.  With a handle whose ping fails with a connection error, [connect]
    does not reconnect: it ends with the [NameError] of [isConnected],
    after the ping alone, and the dead handle stays in the object; so does
    [useDb] with a name. *)
Theorem connect_stale_handle (self : Db) (tr : trace) (h : handle)
    (code : Z) (m : string) (dbName : option string) :
  _conn self = Some h →
  drv_ping tr h = Raises (MySQLdb_Error OperationalError code m) →
  _isConnectionError code = true →
  connect dbName self tr =
    (Raise (PyExc "NameError" "global name 'error' is not defined"),
     self, tr ++ [conn_ping h]) ∧
  ∀ name, useDb (Some name) self tr =
    (Raise (PyExc "NameError" "global name 'error' is not defined"),
     self, tr ++ [conn_ping h]).
Proof.
  intros Hc Hp Hcode.
  pose proof (isConnected_connectivity_probe_failure _ _ _ _ _ Hc Hp Hcode)
    as Hic.
  split; [|intros name; unfold useDb]; unfold connect;
    by rewrite (bind_Raise _ _ _ _ _ _ _ Hic).
Qed.

(** X7.  Without a handle, when the first connection attempt succeeds,
    [connect] with a database name stores the new handle and selects the
    database on it; if the selection is refused the exception raised is its
    translation and the new handle is kept. *)
Theorem connect_fresh_then_select (self : Db) (tr : trace) (h : handle)
    (name : string) :
  _conn self = None →
  drv_connect tr (_kwargs self) = Returns h →
  connect (Some name) self tr =
    (match drv_select_db (tr ++ [MySQLdb_connect (_kwargs self)]) h name with
     | Returns _ => Return tt
     | Raises e => Raise (translated e)
     end,
     with_conn (Some h) self,
     tr ++ [MySQLdb_connect (_kwargs self); conn_select_db h name]).
Proof.
  intros Hc Hok. unfold connect.
  rewrite (bind_Return _ _ _ _ _ _ _ (isConnected_no_handle _ _ Hc)).
  cbn [negb].
  assert (_doConnect self tr =
          (Return tt, with_conn (Some h) self,
           tr ++ [MySQLdb_connect (_kwargs self)])) as Hd.
  { unfold _doConnect. rewrite bind_get_self.
    destruct (_doConnect_fuel self) as [f ->].
    by apply _doConnect_loop_attempt_returns. }
  rewrite (bind_Return _ _ _ _ _ _ _ Hd).
  rewrite (select_db_part name (with_conn (Some h) self) _ h) by reflexivity.
  by rewrite <- app_assoc.
Qed.

Lemma _doConnect_loop_Return_handle fuel : ∀ n self tr self' tr',
  _doConnect_loop fuel n self tr = (Return tt, self', tr') →
  is_Some (_conn self').
Proof.
  induction fuel as [|fuel IH]; intros n self tr self' tr'; [done|].
  destruct (drv_connect tr (_kwargs self)) as [h|e] eqn:He.
  - rewrite (_doConnect_loop_attempt_returns _ _ _ _ _ He).
    intros [= <- <-]. by eexists.
  - rewrite (_doConnect_loop_attempt_raises _ _ _ _ _ He).
    destruct e as [cls code m| | |]; try done.
    destruct (_ || _); [done|].
    destruct (pause_shape self (tr ++ [MySQLdb_connect (_kwargs self)]))
      as [(evp & Hp & _)|[e Hp]]; cbn in Hp.
    + rewrite (bind_Return _ _ _ _ _ _ _ Hp). apply IH.
    + by rewrite (bind_Raise _ _ _ _ _ _ _ Hp).
Qed.

(** X8.  When [connect] returns, the object holds a handle. *)
Theorem connect_returns_with_handle (dbName : option string)
    (self self' : Db) (tr tr' : trace) :
  connect dbName self tr = (Return tt, self', tr') →
  is_Some (_conn self').
Proof.
  unfold connect.
  assert (∀ s t, is_Some (_conn s) →
            (match dbName with
             | Some name =>
                 try_except
                   (h <- the_conn ;;
                    call (conn_select_db h name)
                      (fun tr => drv_select_db tr h name))
                   (fun e => _handleException e)
             | None => ret tt
             end s t).1.2 = s) as Hsel.
  { intros s t [h Hh]. destruct dbName as [name|]; [|done].
    by rewrite (select_db_part name _ _ _ Hh). }
  destruct (_conn self) as [h|] eqn:Hc.
  - pose proof (isConnected_probe _ tr _ Hc) as Hic.
    destruct (drv_ping tr h) as [[]|e].
    + rewrite (bind_Return _ _ _ _ _ _ _ Hic). cbn [negb].
      rewrite (bind_Return _ _ _ _ tt self (tr ++ [conn_ping h]))
        by reflexivity.
      intros Heq. rewrite <- (Hsel self (tr ++ [conn_ping h])) in Hc
        by (by eexists).
      rewrite Heq in Hc. by eexists.
    + destruct e as [[] code m| | |];
        try (by rewrite (bind_Raise _ _ _ _ _ _ _ Hic)).
      destruct (_isConnectionError code);
        by rewrite (bind_Raise _ _ _ _ _ _ _ Hic).
  - rewrite (bind_Return _ _ _ _ _ _ _ (isConnected_no_handle _ _ Hc)).
    cbn [negb]. unfold bind at 1.
    destruct (_doConnect self tr) as [[[[]|e|] s2] t2] eqn:Hd; try done.
    unfold _doConnect in Hd. rewrite bind_get_self in Hd.
    apply _doConnect_loop_Return_handle in Hd.
    intros Heq. rewrite <- (Hsel s2 t2 Hd) in Hd. by rewrite Heq in Hd.
Qed.

(** X9.  [disconnect] (and [close]) never raises: whatever the driver's close
    answers, it returns with no handle left, having called close exactly
    when there was a handle; a second [disconnect] makes no call. *)
Theorem disconnect_swallows_close_errors (self : Db) (tr : trace) :
  ∃ tr',
    disconnect self tr = (Return tt, with_conn None self, tr') ∧
    close self tr = (Return tt, with_conn None self, tr') ∧
    tr' = match _conn self with
          | Some h => tr ++ [conn_close h]
          | None => tr
          end ∧
    disconnect (with_conn None self) tr'
      = (Return tt, with_conn None self, tr').
Proof.
  eexists. split; [apply disconnect_drops_handle|].
  split; [apply disconnect_drops_handle|]. split; [done|].
  by rewrite disconnect_drops_handle.
Qed.

End ConnectMore.

Lemma connect_live_handle_witness :
  connect (drv := no_such_db_driver) (Some "d") connected_db [] =
  (Raise (DbException DbException.SERVER_ERROR
            ["MySQL error 1049: Unknown database 'd'"]),
   connected_db, [conn_ping 7%nat; conn_select_db 7%nat "d"]).
Proof.
  exact (proj2 (connect_live_handle (drv := no_such_db_driver)
                  connected_db [] 7%nat eq_refl eq_refl) "d").
Defined.

Lemma connect_stale_handle_witness :
  connect (drv := constant_driver (Returns 7%nat) (Raises gone_away)
                    (Returns tt))
    None connected_db [] =
  (Raise (PyExc "NameError" "global name 'error' is not defined"),
   connected_db, [conn_ping 7%nat]).
Proof.
  exact (proj1 (connect_stale_handle
                  (drv := constant_driver (Returns 7%nat) (Raises gone_away)
                            (Returns tt))
                  connected_db [] 7%nat 2006 "MySQL server has gone away"
                  None eq_refl eq_refl eq_refl)).
Defined.

Lemma connect_fresh_then_select_witness :
  connect (drv := no_such_db_driver) (Some "d") example_db [] =
  (Raise (DbException DbException.SERVER_ERROR
            ["MySQL error 1049: Unknown database 'd'"]),
   connected_db,
   [MySQLdb_connect (_kwargs example_db); conn_select_db 7%nat "d"]).
Proof.
  exact (connect_fresh_then_select (drv := no_such_db_driver)
           example_db [] 7%nat "d" eq_refl eq_refl).
Defined.

Lemma connect_returns_with_handle_witness : is_Some (_conn connected_db).
Proof.
  exact (connect_returns_with_handle (drv := flaky_driver 0) None
           example_db connected_db [] [MySQLdb_connect (_kwargs example_db)]
           eq_refl).
Defined.

Example disconnect_close_fails :
  disconnect (drv := close_fails_driver) connected_db [] =
  (Return tt, example_db, [conn_close 7%nat]).
Proof. reflexivity. Qed.

(** ** The command executor on an object that holds a handle *)

Section ExecutorMore.
Context {drv : Driver}.

(** [_execCommand] with a handle, by the answers of the driver. *)
Lemma _execCommand_connected (command : string) (nRowsRet : nRows)
    (self : Db) (tr : trace) (h : handle) :
  _conn self = Some h →
  _execCommand command nRowsRet self tr =
    match drv_cursor tr h with
    | Raises e => (Raise e, self, tr ++ [conn_cursor h])
    | Returns cur =>
        match drv_execute (tr ++ [conn_cursor h]) cur command with
        | Raises e =>
            closed_with cur (Raise (translated e)) self
              (tr ++ [conn_cursor h; cursor_execute cur command])
        | Returns _ =>
            match nRowsRet with
            | Rows0 =>
                closed_with cur (Return NoResult) self
                  (tr ++ [conn_cursor h; cursor_execute cur command])
            | Rows1 =>
                closed_with cur
                  match drv_fetchone
                          (tr ++ [conn_cursor h; cursor_execute cur command])
                          cur with
                  | Returns (Some r) => Return (OneRow r)
                  | Returns None => Return NoResult
                  | Raises e => Raise e
                  end self
                  (tr ++ [conn_cursor h; cursor_execute cur command;
                          cursor_fetchone cur])
            | RowsN =>
                closed_with cur
                  match drv_fetchall
                          (tr ++ [conn_cursor h; cursor_execute cur command])
                          cur with
                  | Returns rs => Return (AllRows rs)
                  | Raises e => Raise e
                  end self
                  (tr ++ [conn_cursor h; cursor_execute cur command;
                          cursor_fetchall cur])
            end
        end
    end.
Proof.
  intros Hc. unfold _execCommand. rewrite bind_get_self, Hc.
  rewrite (bind_Return _ _ _ _ tt self tr) by reflexivity.
  rewrite (bind_Return _ _ _ _ _ _ _ (the_conn_Some _ tr _ Hc)).
  destruct (drv_cursor tr h) as [cur|e] eqn:Hcur.
  2:{ by rewrite (bind_Raise _ _ _ _ _ _ _ (call_Raises _ _ _ _ _ Hcur)). }
  rewrite (bind_Return _ _ _ _ _ _ _ (call_Returns _ _ _ _ _ Hcur)).
  unfold try_finally, try_except, closed_with.
  destruct (drv_execute (tr ++ [conn_cursor h]) cur command) as [[]|e] eqn:Hex.
  2:{ rewrite (bind_Raise _ _ _ _ (translated e) self
                 ((tr ++ [conn_cursor h]) ++ [cursor_execute cur command])).
      2:{ by rewrite (call_Raises _ _ _ _ _ Hex), _handleException_raises. }
      unfold call. rewrite <- !app_assoc. cbn [app].
      by destruct (drv_cursor_close _ cur). }
  rewrite (bind_Return _ _ _ _ tt self
             ((tr ++ [conn_cursor h]) ++ [cursor_execute cur command])).
  2:{ by rewrite (call_Returns _ _ _ _ _ Hex). }
  rewrite <- !app_assoc. cbn [app].
  destruct nRowsRet; unfold ret, bind, call.
  - destruct (drv_cursor_close _ cur); by rewrite <- !app_assoc.
  - destruct (drv_fetchone _ cur) as [[r|]|e]; rewrite <- !app_assoc;
      cbn [app]; destruct (drv_cursor_close _ cur);
      by rewrite <- ?app_assoc.
  - destruct (drv_fetchall _ cur) as [rs|e]; rewrite <- !app_assoc;
      cbn [app]; destruct (drv_cursor_close _ cur);
      by rewrite <- ?app_assoc.
Qed.

(** X10.  With a handle in the object, [_execCommand] neither pings nor
    reconnects: its first call opens a cursor.  Once the cursor is open the
    statement is executed on it, at most one fetch follows (none for
    [nRowsRet = 0]), and the last call closes the cursor, on every way
    out.  Only [_conn] could change, and it does not. *)
Theorem _execCommand_closes_cursor (command : string) (nRowsRet : nRows)
    (self : Db) (tr : trace) (h : handle) (cur : cursor) :
  _conn self = Some h →
  drv_cursor tr h = Returns cur →
  ∃ r evs,
    _execCommand command nRowsRet self tr =
      (r, self,
       tr ++ [conn_cursor h; cursor_execute cur command] ++ evs
          ++ [cursor_close cur]) ∧
    r ≠ Diverge ∧
    (evs = [] ∨
     (nRowsRet = Rows1 ∧ evs = [cursor_fetchone cur]) ∨
     (nRowsRet = RowsN ∧ evs = [cursor_fetchall cur])).
Proof.
  intros Hc Hcur. rewrite (_execCommand_connected _ _ _ _ _ Hc), Hcur.
  unfold closed_with.
  destruct (drv_execute _ cur command) as [[]|e].
  2:{ eexists _, []. split; [by rewrite <- app_assoc|].
      split; [by destruct (drv_cursor_close _ cur)|by left]. }
  destruct nRowsRet.
  - eexists _, []. split; [by rewrite <- app_assoc|].
    split; [by destruct (drv_cursor_close _ cur)|by left].
  - eexists _, [cursor_fetchone cur]. split; [by rewrite <- app_assoc|].
    split; [|by right; left].
    destruct (drv_cursor_close _ cur); [|done].
    by destruct (drv_fetchone _ cur) as [[|]|].
  - eexists _, [cursor_fetchall cur]. split; [by rewrite <- app_assoc|].
    split; [|by right; right].
    destruct (drv_cursor_close _ cur); [|done].
    by destruct (drv_fetchall _ cur).
Qed.

(** X11.  A connection lost in the middle of a statement is not retried: when
    the execution fails with a connection error, [_execCommand] raises
    [DbException(SERVER_CONNECT)] after that one execution, makes no
    connection attempt, and leaves the old handle in the object. *)
Theorem _execCommand_no_retry (command : string) (nRowsRet : nRows)
    (self : Db) (tr : trace) (h : handle) (cur : cursor)
    (cls : MySQLdbErrorClass) (code : Z) (m : string) :
  _conn self = Some h →
  drv_cursor tr h = Returns cur →
  drv_execute (tr ++ [conn_cursor h]) cur command
    = Raises (MySQLdb_Error cls code m) →
  _isConnectionError code = true →
  drv_cursor_close (tr ++ [conn_cursor h; cursor_execute cur command]) cur
    = Returns tt →
  _execCommand command nRowsRet self tr =
    (Raise (DbException DbException.SERVER_CONNECT
              ["MySQL error " +:+ pretty code +:+ ": " +:+ m]),
     self,
     tr ++ [conn_cursor h; cursor_execute cur command; cursor_close cur]).
Proof.
  intros Hc Hcur Hex Hcode Hclose.
  rewrite (_execCommand_connected _ _ _ _ _ Hc), Hcur, Hex.
  unfold closed_with. rewrite Hclose. cbn [translated].
  rewrite (SERVER_CONNECT_of_connection_error _ Hcode).
  by rewrite <- !app_assoc.
Qed.

(** X12.  Errors outside the execution itself are not translated: what opening
    the cursor raises, and what a fetch raises once the cursor is closed
    again, reaches the caller as the driver's own exception. *)
Theorem _execCommand_untranslated_errors (command : string)
    (self : Db) (tr : trace) (h : handle) (e : exn) :
  _conn self = Some h →
  (∀ nRowsRet,
     drv_cursor tr h = Raises e →
     _execCommand command nRowsRet self tr
       = (Raise e, self, tr ++ [conn_cursor h])) ∧
  (∀ cur,
     drv_cursor tr h = Returns cur →
     drv_execute (tr ++ [conn_cursor h]) cur command = Returns tt →
     drv_fetchone (tr ++ [conn_cursor h; cursor_execute cur command]) cur
       = Raises e →
     drv_cursor_close
       (tr ++ [conn_cursor h; cursor_execute cur command; cursor_fetchone cur])
       cur = Returns tt →
     execCommand1 command self tr =
       (Raise e, self,
        tr ++ [conn_cursor h; cursor_execute cur command;
               cursor_fetchone cur; cursor_close cur])) ∧
  (∀ cur,
     drv_cursor tr h = Returns cur →
     drv_execute (tr ++ [conn_cursor h]) cur command = Returns tt →
     drv_fetchall (tr ++ [conn_cursor h; cursor_execute cur command]) cur
       = Raises e →
     drv_cursor_close
       (tr ++ [conn_cursor h; cursor_execute cur command; cursor_fetchall cur])
       cur = Returns tt →
     execCommandN command self tr =
       (Raise e, self,
        tr ++ [conn_cursor h; cursor_execute cur command;
               cursor_fetchall cur; cursor_close cur])).
Proof.
  intros Hc. split; [|split].
  - intros nRowsRet Hcur. by rewrite (_execCommand_connected _ _ _ _ _ Hc), Hcur.
  - intros cur Hcur Hex Hf Hclose. unfold execCommand1.
    rewrite (_execCommand_connected _ _ _ _ _ Hc), Hcur, Hex, Hf.
    unfold closed_with. rewrite Hclose. by rewrite <- !app_assoc.
  - intros cur Hcur Hex Hf Hclose. unfold execCommandN.
    rewrite (_execCommand_connected _ _ _ _ _ Hc), Hcur, Hex, Hf.
    unfold closed_with. rewrite Hclose. by rewrite <- !app_assoc.
Qed.

(** The two fetching commands when the server answers. *)
Lemma execCommand1_answers command self tr h cur r :
  _conn self = Some h →
  answers_one tr h cur command r →
  execCommand1 command self tr =
    (Return (match r with Some r => OneRow r | None => NoResult end), self,
     tr ++ [conn_cursor h; cursor_execute cur command;
            cursor_fetchone cur; cursor_close cur]).
Proof.
  intros Hc (Hcur & Hex & Hf & Hclose). unfold execCommand1.
  rewrite (_execCommand_connected _ _ _ _ _ Hc), Hcur, Hex, Hf.
  unfold closed_with. rewrite Hclose. rewrite <- !app_assoc.
  by destruct r.
Qed.

Lemma execCommandN_answers command self tr h cur rs :
  _conn self = Some h →
  answers_all tr h cur command rs →
  execCommandN command self tr =
    (Return (AllRows rs), self,
     tr ++ [conn_cursor h; cursor_execute cur command;
            cursor_fetchall cur; cursor_close cur]).
Proof.
  intros Hc (Hcur & Hex & Hf & Hclose). unfold execCommandN.
  rewrite (_execCommand_connected _ _ _ _ _ Hc), Hcur, Hex, Hf.
  unfold closed_with. rewrite Hclose. by rewrite <- !app_assoc.
Qed.

End ExecutorMore.

Lemma _execCommand_closes_cursor_witness :
  ∃ r evs,
    _execCommand (drv := query_driver (Returns (Some [VInt 1])) (Returns []))
      "SELECT 1" Rows1 connected_db [] =
      (r, connected_db,
       [] ++ [conn_cursor 7%nat; cursor_execute 1%nat "SELECT 1"] ++ evs
          ++ [cursor_close 1%nat]) ∧
    r ≠ Diverge ∧
    (evs = [] ∨
     (Rows1 = Rows1 ∧ evs = [cursor_fetchone 1%nat]) ∨
     (Rows1 = RowsN ∧ evs = [cursor_fetchall 1%nat])).
Proof.
  exact (_execCommand_closes_cursor
           (drv := query_driver (Returns (Some [VInt 1])) (Returns []))
           "SELECT 1" Rows1 connected_db [] 7%nat 1%nat eq_refl eq_refl).
Defined.

Lemma _execCommand_no_retry_witness :
  _execCommand (drv := constant_driver (Returns 7%nat) (Returns tt)
                         (Raises gone_away))
    "SELECT 1" RowsN connected_db [] =
  (Raise (DbException DbException.SERVER_CONNECT
            ["MySQL error 2006: MySQL server has gone away"]),
   connected_db,
   [conn_cursor 7%nat; cursor_execute 1%nat "SELECT 1"; cursor_close 1%nat]).
Proof.
  exact (_execCommand_no_retry
           (drv := constant_driver (Returns 7%nat) (Returns tt)
                     (Raises gone_away))
           "SELECT 1" RowsN connected_db [] 7%nat 1%nat OperationalError
           2006 "MySQL server has gone away"
           eq_refl eq_refl eq_refl eq_refl eq_refl).
Defined.

Lemma _execCommand_untranslated_errors_witness :
  execCommand1 (drv := query_driver (Raises gone_away) (Returns []))
    "SELECT 1" connected_db [] =
  (Raise gone_away, connected_db,
   [conn_cursor 7%nat; cursor_execute 1%nat "SELECT 1";
    cursor_fetchone 1%nat; cursor_close 1%nat]).
Proof.
  exact (proj1 (proj2 (_execCommand_untranslated_errors
                         (drv := query_driver (Raises gone_away) (Returns []))
                         "SELECT 1" connected_db [] 7%nat gone_away eq_refl))
           1%nat eq_refl eq_refl eq_refl eq_refl).
Defined.

(** ** The queries built on the executor *)

Section QueriesMore.
Context {drv : Driver}.

(** X13.  [dbExists] with a name, on an object that holds a handle: it runs the
    one COUNT query on [information_schema.schemata] and returns whether
    the first column of the row fetched equals 1.  When the server gives no
    row the indexing of [None] raises [TypeError]; an empty row raises
    [IndexError]. *)
Theorem dbExists_answer (name : string) (self : Db) (tr : trace)
    (h : handle) (cur : cursor) (r : option row) :
  _conn self = Some h →
  answers_one tr h cur
    ("SELECT COUNT(*) FROM information_schema.schemata WHERE schema_name = '"
       +:+ name +:+ "'") r →
  dbExists (Some name) self tr =
    (match r with
     | Some (v :: _) => Return (py_eq_one v)
     | Some [] => Raise (PyExc "IndexError" "tuple index out of range")
     | None =>
         Raise (PyExc "TypeError"
                  "'NoneType' object has no attribute '__getitem__'")
     end,
     self,
     tr ++ [conn_cursor h;
            cursor_execute cur
              ("SELECT COUNT(*) FROM information_schema.schemata WHERE schema_name = '"
                 +:+ name +:+ "'");
            cursor_fetchone cur; cursor_close cur]).
Proof.
  intros Hc Hans. pose proof (execCommand1_answers _ _ _ _ _ _ Hc Hans) as Hrun.
  unfold dbExists. erewrite bind_Return; [|exact Hrun].
  by destruct r as [[|v rest]|].
Qed.

(** X14.  [tableExists]: the COUNT query on [information_schema.tables] is
    scoped to the quoted database name when one is given and to
    [DATABASE()] otherwise; the answer is whether the first column of the
    row fetched equals 1. *)
Theorem tableExists_answer (tableName : string) (dbName : option string)
    (self : Db) (tr : trace) (h : handle) (cur : cursor) (r : option row) :
  _conn self = Some h →
  answers_one tr h cur
    ("SELECT COUNT(*) FROM information_schema.tables WHERE table_schema = "
       +:+ match dbName with
           | Some name => "'" +:+ name +:+ "'"
           | None => "DATABASE()"
           end
       +:+ " AND table_name = '" +:+ tableName +:+ "'") r →
  tableExists tableName dbName self tr =
    (match r with
     | Some (v :: _) => Return (py_eq_one v)
     | Some [] => Raise (PyExc "IndexError" "tuple index out of range")
     | None =>
         Raise (PyExc "TypeError"
                  "'NoneType' object has no attribute '__getitem__'")
     end,
     self,
     tr ++ [conn_cursor h;
            cursor_execute cur
              ("SELECT COUNT(*) FROM information_schema.tables WHERE table_schema = "
                 +:+ match dbName with
                     | Some name => "'" +:+ name +:+ "'"
                     | None => "DATABASE()"
                     end
                 +:+ " AND table_name = '" +:+ tableName +:+ "'");
            cursor_fetchone cur; cursor_close cur]).
Proof.
  intros Hc Hans. pose proof (execCommand1_answers _ _ _ _ _ _ Hc Hans) as Hrun.
  unfold tableExists. erewrite bind_Return; [|exact Hrun].
  by destruct r as [[|v rest]|].
Qed.

(** X15.  [userExists]: the COUNT query on [mysql.user]; the answer is whether
    the first column of the row fetched differs from 0. *)
Theorem userExists_answer (userName hostName : string)
    (self : Db) (tr : trace) (h : handle) (cur : cursor) (r : option row) :
  _conn self = Some h →
  answers_one tr h cur
    ("SELECT COUNT(*) FROM mysql.user WHERE user='" +:+ userName
       +:+ "' AND host='" +:+ hostName +:+ "'") r →
  userExists userName hostName self tr =
    (match r with
     | Some (v :: _) => Return (py_ne_zero v)
     | Some [] => Raise (PyExc "IndexError" "tuple index out of range")
     | None =>
         Raise (PyExc "TypeError"
                  "'NoneType' object has no attribute '__getitem__'")
     end,
     self,
     tr ++ [conn_cursor h;
            cursor_execute cur
              ("SELECT COUNT(*) FROM mysql.user WHERE user='" +:+ userName
                 +:+ "' AND host='" +:+ hostName +:+ "'");
            cursor_fetchone cur; cursor_close cur]).
Proof.
  intros Hc Hans. pose proof (execCommand1_answers _ _ _ _ _ _ Hc Hans) as Hrun.
  unfold userExists. erewrite bind_Return; [|exact Hrun].
  by destruct r as [[|v rest]|].
Qed.

(** X16.  [isView]: all rows of the [table_type] query are fetched; the answer
    is True exactly when there is a single row and its first column is the
    string "VIEW".  No row, or more than one, gives False. *)
Theorem isView_answer (tableName : string) (dbName : option string)
    (self : Db) (tr : trace) (h : handle) (cur : cursor) (rs : list row) :
  _conn self = Some h →
  answers_all tr h cur
    ("SELECT table_type FROM information_schema.tables WHERE table_schema="
       +:+ match dbName with
           | Some name => "'" +:+ name +:+ "'"
           | None => "DATABASE()"
           end
       +:+ " AND table_name='" +:+ tableName +:+ "'") rs →
  isView tableName dbName self tr =
    (match rs with
     | [v :: _] => Return (bool_decide (v = VStr "VIEW"))
     | [[]] => Raise (PyExc "IndexError" "tuple index out of range")
     | _ => Return false
     end,
     self,
     tr ++ [conn_cursor h;
            cursor_execute cur
              ("SELECT table_type FROM information_schema.tables WHERE table_schema="
                 +:+ match dbName with
                     | Some name => "'" +:+ name +:+ "'"
                     | None => "DATABASE()"
                     end
                 +:+ " AND table_name='" +:+ tableName +:+ "'");
            cursor_fetchall cur; cursor_close cur]).
Proof.
  intros Hc Hans. pose proof (execCommandN_answers _ _ _ _ _ _ Hc Hans) as Hrun.
  unfold isView. erewrite bind_Return; [|exact Hrun].
  destruct rs as [|[|v rest] [|r2 rs]]; try reflexivity.
  cbn. unfold ret. repeat f_equal.
  destruct v as [| | |s]; cbn; try by rewrite bool_decide_eq_false_2.
  apply bool_decide_ext. split; [by intros ->|by intros [= ->]].
Qed.

End QueriesMore.

Lemma dbExists_answer_witness :
  dbExists (drv := query_driver (Returns (Some [VInt 1])) (Returns []))
    (Some "d") connected_db [] =
  (Return true, connected_db,
   [conn_cursor 7%nat;
    cursor_execute 1%nat
      "SELECT COUNT(*) FROM information_schema.schemata WHERE schema_name = 'd'";
    cursor_fetchone 1%nat; cursor_close 1%nat]).
Proof.
  exact (dbExists_answer
           (drv := query_driver (Returns (Some [VInt 1])) (Returns []))
           "d" connected_db [] 7%nat 1%nat (Some [VInt 1]) eq_refl
           (conj eq_refl (conj eq_refl (conj eq_refl eq_refl)))).
Defined.

Lemma tableExists_answer_witness :
  tableExists (drv := query_driver (Returns (Some [VInt 0])) (Returns []))
    "t" None connected_db [] =
  (Return false, connected_db,
   [conn_cursor 7%nat;
    cursor_execute 1%nat
      "SELECT COUNT(*) FROM information_schema.tables WHERE table_schema = DATABASE() AND table_name = 't'";
    cursor_fetchone 1%nat; cursor_close 1%nat]).
Proof.
  exact (tableExists_answer
           (drv := query_driver (Returns (Some [VInt 0])) (Returns []))
           "t" None connected_db [] 7%nat 1%nat (Some [VInt 0]) eq_refl
           (conj eq_refl (conj eq_refl (conj eq_refl eq_refl)))).
Defined.

Lemma userExists_answer_witness :
  userExists (drv := query_driver (Returns (Some [VInt 2])) (Returns []))
    "root" "localhost" connected_db [] =
  (Return true, connected_db,
   [conn_cursor 7%nat;
    cursor_execute 1%nat
      "SELECT COUNT(*) FROM mysql.user WHERE user='root' AND host='localhost'";
    cursor_fetchone 1%nat; cursor_close 1%nat]).
Proof.
  exact (userExists_answer
           (drv := query_driver (Returns (Some [VInt 2])) (Returns []))
           "root" "localhost" connected_db [] 7%nat 1%nat (Some [VInt 2])
           eq_refl (conj eq_refl (conj eq_refl (conj eq_refl eq_refl)))).
Defined.

Lemma isView_answer_witness :
  isView (drv := query_driver (Returns None) (Returns [[VStr "VIEW"]]))
    "v" (Some "d") connected_db [] =
  (Return true, connected_db,
   [conn_cursor 7%nat;
    cursor_execute 1%nat
      "SELECT table_type FROM information_schema.tables WHERE table_schema='d' AND table_name='v'";
    cursor_fetchall 1%nat; cursor_close 1%nat]).
Proof.
  exact (isView_answer
           (drv := query_driver (Returns None) (Returns [[VStr "VIEW"]]))
           "v" (Some "d") connected_db [] 7%nat 1%nat [[VStr "VIEW"]]
           eq_refl (conj eq_refl (conj eq_refl (conj eq_refl eq_refl)))).
Defined.

Example dbExists_no_row :
  (dbExists (drv := query_driver (Returns None) (Returns []))
     (Some "d") connected_db []).1.1 =
  Raise (PyExc "TypeError" "'NoneType' object has no attribute '__getitem__'").
Proof. vm_compute. reflexivity. Qed.

Example isView_base_table :
  (isView (drv := query_driver (Returns None) (Returns [[VStr "BASE TABLE"]]))
     "t" None connected_db []).1.1 = Return false.
Proof. vm_compute. reflexivity. Qed.

(** ** What the constructor stores *)

Lemma dict_in_keys k (d : dict) : dict_in k d = true ↔ k ∈ keys d.
Proof.
  unfold dict_in, keys. induction d as [|[k0 v] d IH]; cbn.
  - split; [done|]. intros H. by apply elem_of_nil in H.
  - rewrite orb_true_iff, bool_decide_eq_true, IH, elem_of_cons.
    cbn. split; intros [H|H]; auto.
Qed.

Lemma dict_in_false_keys k (d : dict) : dict_in k d = false ↔ k ∉ keys d.
Proof.
  rewrite <- dict_in_keys. by destruct (dict_in k d).
Qed.

Lemma keys_dict_set k k' v (d : dict) :
  k ∈ keys (dict_set k' v d) ↔ k ∈ keys d ∨ k = k'.
Proof.
  unfold dict_set. destruct (dict_in k' d) eqn:Hin.
  - apply dict_in_keys in Hin.
    assert (keys (map (λ kv : string * value,
                         if decide (kv.1 = k') then (k', v) else kv) d)
            = keys d) as ->.
    { unfold keys. clear Hin. induction d as [|[k0 v0] d IH]; [done|].
      cbn. rewrite IH. by destruct (decide (k0 = k')) as [->|]. }
    split; [tauto|]. by intros [?| ->].
  - unfold keys. rewrite fmap_app, elem_of_app. cbn.
    by rewrite list_elem_of_singleton.
Qed.

Lemma dict_get_not_in k dflt (d : dict) :
  k ∉ keys d → dict_get k dflt d = dflt.
Proof.
  unfold keys. induction d as [|[k0 v0] d IH]; cbn; [done|].
  rewrite elem_of_cons. intros Hn.
  rewrite decide_False by (intros ->; apply Hn; by left).
  apply IH. intros H. apply Hn. by right.
Qed.

(** The dictionary a successful construction stores, with the conversion
    of the port. *)
Lemma __init___stores (kwargs : dict) (self : Db) :
  __init__ kwargs = Returns self →
  let kw0 := dict_del "maxRetryCount" (dict_del "sleepLen" kwargs) in
  let kw1 := if dict_in "read_default_file" kw0
             then dict_set "read_default_group" (VStr "mysql") kw0 else kw0 in
  let kw2 := if bool_decide (dict_get "host" (VStr EmptyString) kw1
                             = VStr "localhost")
             then dict_set "host" (VStr "127.0.0.1") kw1 else kw1 in
  check_connect_args kw0 = Returns tt ∧
  ((dict_in "port" kw2 = false ∧ _kwargs self = kw2) ∨
   (dict_in "port" kw2 = true ∧
    ∃ port, py_int (dict_get "port" VNone kw2) = Returns port ∧
            _kwargs self = dict_set "port" (VInt port) kw2)).
Proof.
  unfold __init__, dict_pop. cbn zeta.
  destruct (py_one_plus _) as [a|]; [|discriminate]. cbn [answer_bind].
  destruct (check_connect_args _) as [[]|]; [|discriminate]. cbn [answer_bind].
  set (kw0 := dict_del "maxRetryCount" (dict_del "sleepLen" kwargs)).
  set (kw1 := if dict_in "read_default_file" kw0 then _ else _).
  set (kw2 := if bool_decide _ then _ else _).
  destruct (dict_in "port" kw2).
  - destruct (py_int _) as [port|] eqn:Hp; [|discriminate]. cbn [answer_bind].
    intros [= <-]. cbn. split; [done|]. right. eauto.
  - cbn [answer_bind]. intros [= <-]. cbn. auto.
Qed.

(** X17.  The keys the constructor stores are the keys given, without
    "sleepLen" and "maxRetryCount", together with "read_default_group"
    when "read_default_file" was given; every stored key other than
    "read_default_group" is a keyword of [_connectArgNameMap]. *)
Theorem __init___stored_keys (kwargs : dict) (self : Db) :
  __init__ kwargs = Returns self →
  (∀ k, k ∈ keys (_kwargs self) ↔
        (k ∈ keys kwargs ∧ k ≠ "sleepLen" ∧ k ≠ "maxRetryCount") ∨
        (k = "read_default_group" ∧ "read_default_file" ∈ keys kwargs)) ∧
  (∀ k, k ∈ keys (_kwargs self) →
        is_Some (_connectArgNameMap !! k) ∨ k = "read_default_group").
Proof.
  intros Hinit. apply __init___stores in Hinit.
  destruct Hinit as (Hcheck & Hkw). cbn zeta in Hkw.
  set (kw0 := dict_del "maxRetryCount" (dict_del "sleepLen" kwargs)) in *.
  set (kw1 := if dict_in "read_default_file" kw0
              then dict_set "read_default_group" (VStr "mysql") kw0
              else kw0) in *.
  set (kw2 := if bool_decide (dict_get "host" (VStr EmptyString) kw1
                              = VStr "localhost")
              then dict_set "host" (VStr "127.0.0.1") kw1 else kw1) in *.
  assert (∀ k, k ∈ keys kw0 ↔
               k ∈ keys kwargs ∧ k ≠ "sleepLen" ∧ k ≠ "maxRetryCount") as H0.
  { intros k. unfold kw0. rewrite !keys_dict_del. tauto. }
  assert (∀ k, k ∈ keys kw1 ↔
               k ∈ keys kw0 ∨
               (k = "read_default_group" ∧ "read_default_file" ∈ keys kwargs))
    as H1.
  { intros k. unfold kw1. destruct (dict_in "read_default_file" kw0) eqn:Hf.
    - apply dict_in_keys, H0 in Hf. rewrite keys_dict_set. tauto.
    - apply dict_in_false_keys in Hf. rewrite H0 in Hf.
      split; [tauto|]. intros [?|[_ Hin]]; [done|].
      exfalso. apply Hf. by repeat split. }
  assert (∀ k, k ∈ keys kw2 ↔ k ∈ keys kw1) as H2.
  { intros k. unfold kw2. destruct (bool_decide _) eqn:Hb; [|done].
    apply bool_decide_eq_true in Hb. rewrite keys_dict_set.
    split; [|tauto]. intros [?| ->]; [done|].
    destruct (decide ("host" ∈ keys kw1)) as [|Hn]; [done|].
    by rewrite (dict_get_not_in _ _ _ Hn) in Hb. }
  assert (∀ k, k ∈ keys (_kwargs self) ↔ k ∈ keys kw2) as H3.
  { intros k. destruct Hkw as [[_ ->]|(Hin & port & _ & ->)]; [done|].
    apply dict_in_keys in Hin. rewrite keys_dict_set.
    split; [|tauto]. by intros [?| ->]. }
  split.
  - intros k. rewrite H3, H2, H1, H0. tauto.
  - intros k. rewrite H3, H2, H1. intros [Hin|[-> _]]; [|by right]. left.
    destruct (check_connect_args_outcome kw0) as [[_ Hall]|(k' & _ & _ & Hr)].
    + by apply Hall.
    + fold kw0 in Hcheck. congruence.
Qed.

(** X18.  The values the constructor stores: "read_default_group" is "mysql"
    when "read_default_file" was given; a port given is stored as the
    integer [int(port)], so construction succeeds only when the conversion
    does; and every other keyword but "host" keeps the value given. *)
Theorem __init___stored_values (kwargs : dict) (self : Db) :
  __init__ kwargs = Returns self →
  (∀ k dflt, k ≠ "host" → k ≠ "port" → k ≠ "read_default_group" →
             k ≠ "sleepLen" → k ≠ "maxRetryCount" →
     dict_get k dflt (_kwargs self) = dict_get k dflt kwargs) ∧
  ("read_default_file" ∈ keys kwargs →
     dict_get "read_default_group" VNone (_kwargs self) = VStr "mysql") ∧
  ("port" ∈ keys kwargs →
     ∃ p, py_int (dict_get "port" VNone kwargs) = Returns p ∧
          dict_get "port" VNone (_kwargs self) = VInt p).
Proof.
  intros Hinit. apply __init___stores in Hinit.
  destruct Hinit as (_ & Hkw). cbn zeta in Hkw.
  set (kw0 := dict_del "maxRetryCount" (dict_del "sleepLen" kwargs)) in *.
  set (kw1 := if dict_in "read_default_file" kw0
              then dict_set "read_default_group" (VStr "mysql") kw0
              else kw0) in *.
  set (kw2 := if bool_decide (dict_get "host" (VStr EmptyString) kw1
                              = VStr "localhost")
              then dict_set "host" (VStr "127.0.0.1") kw1 else kw1) in *.
  assert (∀ k dflt, k ≠ "sleepLen" → k ≠ "maxRetryCount" →
            dict_get k dflt kw0 = dict_get k dflt kwargs) as G0.
  { intros k dflt ? ?. unfold kw0. by rewrite !dict_get_del_ne. }
  assert (∀ k dflt, k ≠ "read_default_group" →
            dict_get k dflt kw1 = dict_get k dflt kw0) as G1.
  { intros k dflt ?. unfold kw1. destruct (dict_in _ kw0); [|done].
    by rewrite dict_get_set_ne. }
  assert (∀ k dflt, k ≠ "host" →
            dict_get k dflt kw2 = dict_get k dflt kw1) as G2.
  { intros k dflt ?. unfold kw2. destruct (bool_decide _); [|done].
    by rewrite dict_get_set_ne. }
  assert (∀ k dflt, k ≠ "port" →
            dict_get k dflt (_kwargs self) = dict_get k dflt kw2) as G3.
  { intros k dflt ?. destruct Hkw as [[_ ->]|(_ & port & _ & ->)]; [done|].
    by rewrite dict_get_set_ne. }
  split; [|split].
  - intros k dflt ? ? ? ? ?. by rewrite G3, G2, G1, G0.
  - intros Hin. rewrite G3, G2 by done. unfold kw1.
    assert (dict_in "read_default_file" kw0 = true) as ->.
    { apply dict_in_keys. unfold kw0. rewrite !keys_dict_del. by repeat split. }
    apply dict_get_set_eq.
  - intros Hin.
    assert (dict_in "port" kw2 = true) as Hp2.
    { apply dict_in_keys.
      assert ("port" ∈ keys kw0) as H0
        by (unfold kw0; rewrite !keys_dict_del; by repeat split).
      assert ("port" ∈ keys kw1) as H1.
      { unfold kw1. destruct (dict_in _ kw0); [|done].
        apply keys_dict_set. by left. }
      unfold kw2. destruct (bool_decide _); [|done].
      apply keys_dict_set. by left. }
    destruct Hkw as [[Hno _]|(_ & port & Hint & ->)]; [congruence|].
    exists port. rewrite G2, G1, G0 in Hint by done.
    split; [done|]. apply dict_get_set_eq.
Qed.

(** X19.  A configuration without "maxRetryCount" allows a single attempt, and
    without "sleepLen" the pause is 3: on an object so constructed,
    whatever the first connection attempt raises ends [_doConnect], in
    translated form, after that one call to the driver. *)
Theorem default_configuration_single_attempt (kwargs : dict) (self : Db) :
  __init__ kwargs = Returns self →
  "maxRetryCount" ∉ keys kwargs →
  _attemptMaxNo self = 1 ∧
  ("sleepLen" ∉ keys kwargs → _sleepLen self = VInt 3) ∧
  (∀ (drv : Driver) tr e,
     drv_connect tr (_kwargs self) = Raises e →
     _doConnect self tr =
       (Raise (translated e), self,
        tr ++ [MySQLdb_connect (_kwargs self)])).
Proof.
  intros Hinit Hno.
  destruct (__init___retry_policy kwargs self 0 Hinit
              (dict_get_not_in _ _ _ Hno)) as [Ha Hs].
  split; [done|]. split.
  - intros Hns. by rewrite Hs, (dict_get_not_in _ _ _ Hns).
  - intros drv tr e He. apply _doConnect_single_attempt; [lia|done].
Qed.

Lemma __init___stored_keys_witness :
  is_Some (_connectArgNameMap !! "host") ∨ "host" = "read_default_group".
Proof.
  refine (proj2 (__init___stored_keys example_kwargs example_db _) "host" _).
  - vm_compute. reflexivity.
  - apply list_elem_of_In. cbn. tauto.
Defined.

Lemma __init___stored_values_witness :
  ∃ p, py_int (dict_get "port" VNone example_kwargs) = Returns p ∧
       dict_get "port" VNone (_kwargs example_db) = VInt p.
Proof.
  refine (proj2 (proj2 (__init___stored_values example_kwargs example_db _)) _).
  - vm_compute. reflexivity.
  - apply list_elem_of_In. cbn. tauto.
Defined.

Lemma default_configuration_single_attempt_witness :
  _attemptMaxNo (mkDb None [("user", VStr "u")] (VInt 3) 1) = 1.
Proof.
  refine (proj1 (default_configuration_single_attempt
                   [("user", VStr "u")]
                   (mkDb None [("user", VStr "u")] (VInt 3) 1) _ _)).
  - vm_compute. reflexivity.
  - intros Hin. apply list_elem_of_In in Hin. cbn in Hin.
    destruct Hin as [[=]|[]].
Defined.

Example init_defaults_file :
  __init__ [("read_default_file", VStr "/home/u/.my.cnf")] =
  Returns (mkDb None [("read_default_file", VStr "/home/u/.my.cnf");
                      ("read_default_group", VStr "mysql")] (VInt 3) 1).
Proof. vm_compute. reflexivity. Qed.

Example init_bad_port :
  __init__ [("host", VStr "h"); ("port", VStr "33o6")] =
  Raises (PyExc "ValueError" "invalid literal for int() with base 10: '33o6'").
Proof. vm_compute. reflexivity. Qed.

(** ** The calls the executor and the operations built on it make *)

Section ExecutorCalls.
Context {drv : Driver}.

(** Without a handle the executor connects first and then proceeds as
    with the handle obtained. *)
Lemma _execCommand_lazy_connect (command : string) (nRowsRet : nRows)
    (self : Db) (tr : trace) :
  _conn self = None →
  _execCommand command nRowsRet self tr =
    match _doConnect self tr with
    | (Return _, self', tr') => _execCommand command nRowsRet self' tr'
    | (Raise e, self', tr') => (Raise e, self', tr')
    | (Diverge, self', tr') => (Diverge, self', tr')
    end.
Proof.
  intros Hc. unfold _execCommand at 1. rewrite bind_get_self, Hc.
  unfold bind at 1. unfold connect.
  rewrite (bind_Return _ _ _ _ _ _ _ (isConnected_no_handle _ _ Hc)).
  cbn [negb]. unfold bind at 1.
  destruct (_doConnect self tr) as [[[[]|e|] s2] t2] eqn:Hd; try done.
  unfold ret. unfold _doConnect in Hd. rewrite bind_get_self in Hd.
  destruct (_doConnect_loop_Return_handle _ _ _ _ _ _ Hd) as [h Hh].
  unfold _execCommand. rewrite bind_get_self, Hh.
  by rewrite (bind_Return _ _ _ _ tt s2 t2) by reflexivity.
Qed.

Lemma _doConnect_attempts_bounded_events self tr :
  ∃ evs, (_doConnect self tr).2 = tr ++ evs ∧ Forall executor_event evs.
Proof.
  unfold _doConnect. rewrite bind_get_self.
  destruct (_doConnect_loop_bounded
              (Z.to_nat (Z.max 1 (_attemptMaxNo self))) 1 self tr)
    as (evs & Heq & _ & _ & _ & H4); [lia|].
  exists evs. split; [done|]. eapply Forall_impl; [exact H4|].
  by intros [].
Qed.

Lemma _execCommand_connected_calls command nRowsRet self tr h :
  _conn self = Some h →
  ∃ evs, (_execCommand command nRowsRet self tr).2 = tr ++ evs ∧
         Forall executor_event evs.
Proof.
  intros Hc. rewrite (_execCommand_connected _ _ _ _ _ Hc).
  destruct (drv_cursor tr h) as [cur|e].
  2:{ exists [conn_cursor h]. split; [done|]. by repeat constructor. }
  unfold closed_with.
  destruct (drv_execute _ cur command) as [[]|e];
    [destruct nRowsRet|]; cbn [snd]; rewrite <- app_assoc;
    (eexists; split; [reflexivity|by repeat constructor]).
Qed.

Lemma _execCommand_events (command : string) (nRowsRet : nRows)
    (self : Db) (tr : trace) :
  ∃ evs, (_execCommand command nRowsRet self tr).2 = tr ++ evs ∧
         Forall executor_event evs.
Proof.
  destruct (_conn self) as [h|] eqn:Hc.
  { by apply (_execCommand_connected_calls _ _ _ _ h). }
  rewrite (_execCommand_lazy_connect _ _ _ _ Hc).
  destruct (_doConnect_attempts_bounded_events self tr) as (evs & Heq & Hevs).
  destruct (_doConnect self tr) as [[[[]|e|] s2] t2] eqn:Hd; cbn [snd] in *;
    subst t2; try (by exists evs).
  unfold _doConnect in Hd. rewrite bind_get_self in Hd.
  destruct (_doConnect_loop_Return_handle _ _ _ _ _ _ Hd) as [h Hh].
  destruct (_execCommand_connected_calls command nRowsRet s2 (tr ++ evs) h Hh)
    as (evs' & -> & Hevs').
  exists (evs ++ evs'). split; [by rewrite app_assoc|].
  by apply Forall_app.
Qed.

(** X20.  Whatever the state of the object and the answers of the server, the
    calls [_execCommand] makes are connection attempts with their pauses
    and calls on a cursor: it never pings, never selects a database (a
    reconnection does not restore the database selected before) and never
    closes the connection. *)
Theorem _execCommand_calls (command : string) (nRowsRet : nRows)
    (self : Db) (tr : trace) :
  ∃ evs, (_execCommand command nRowsRet self tr).2 = tr ++ evs ∧
         Forall executor_event evs.
Proof. apply _execCommand_events. Qed.

End ExecutorCalls.

Section OperationsCalls.
Context {drv : Driver}.

Lemma bind_pure_trace {A B} (m : M A) (k : A → M B) self tr :
  (∀ a s t, (k a s t).2 = t) → (bind m k self tr).2 = (m self tr).2.
Proof.
  intros Hk. unfold bind.
  destruct (m self tr) as [[[a|e|] s] t]; [apply Hk|done..].
Qed.

Lemma execCommand0_trace command self tr :
  (execCommand0 command self tr).2 = (_execCommand command Rows0 self tr).2.
Proof. unfold execCommand0. by apply bind_pure_trace. Qed.

Lemma absorbing_trace (m : M unit) (kind : Z) (permit : bool) self tr :
  (try_except_as isinstance_DbException m
     (fun e =>
        match e with
        | DbException errCode _ =>
            if bool_decide (errCode = kind) && permit then ret tt else raise e
        | _ => raise e
        end) self tr).2 = (m self tr).2.
Proof. rewrite try_absorb. by destruct (m self tr) as [[r s] t]. Qed.

Lemma first_is_one_trace count s t : (first_is_one count s t).2 = t.
Proof. by destruct count as [|[|v r]|[|r rs]]. Qed.

Lemma first_is_not_zero_trace r s t : (first_is_not_zero r s t).2 = t.
Proof. by destruct r as [|[|v r]|[|r rs]]. Qed.

Lemma single_row_is_VIEW_trace rows s t : (single_row_is_VIEW rows s t).2 = t.
Proof.
  destruct rows as [|[|[| | |x] [|v2 r]]|[|[|v r] [|r2 rs]]]; try done.
  cbn. by destruct (bool_decide (x = EmptyString)).
Qed.

(** X21.  Every schema operation and query makes only the calls of the
    executor: none of them pings the server, selects a database or closes
    the connection, whatever its arguments and the server's answers; in
    particular an operation given a database name leaves the selected
    database alone. *)
Theorem operations_calls (self : Db) (tr : trace) :
  (∀ dbName mayExist,
     ∃ evs, (createDb dbName mayExist self tr).2 = tr ++ evs ∧
            Forall executor_event evs) ∧
  (∀ dbName mustExist,
     ∃ evs, (dropDb dbName mustExist self tr).2 = tr ++ evs ∧
            Forall executor_event evs) ∧
  (∀ tableName tableSchema dbName mayExist,
     ∃ evs, (createTable tableName tableSchema dbName mayExist self tr).2
              = tr ++ evs ∧
            Forall executor_event evs) ∧
  (∀ tableName dbName mustExist,
     ∃ evs, (dropTable tableName dbName mustExist self tr).2 = tr ++ evs ∧
            Forall executor_event evs) ∧
  (∀ dbName,
     ∃ evs, (dbExists dbName self tr).2 = tr ++ evs ∧
            Forall executor_event evs) ∧
  (∀ tableName dbName,
     ∃ evs, (tableExists tableName dbName self tr).2 = tr ++ evs ∧
            Forall executor_event evs) ∧
  (∀ tableName dbName,
     ∃ evs, (isView tableName dbName self tr).2 = tr ++ evs ∧
            Forall executor_event evs) ∧
  (∀ userName hostName,
     ∃ evs, (userExists userName hostName self tr).2 = tr ++ evs ∧
            Forall executor_event evs).
Proof.
  assert (∃ evs : list event, tr = tr ++ evs ∧ Forall executor_event evs)
    as Hnil by (exists []; by rewrite app_nil_r).
  repeat split.
  - intros [name|] mayExist; [|exact Hnil]. unfold createDb.
    rewrite absorbing_trace, execCommand0_trace. apply _execCommand_events.
  - intros dbName mustExist. unfold dropDb.
    rewrite absorbing_trace, execCommand0_trace. apply _execCommand_events.
  - intros tableName tableSchema dbName mayExist. unfold createTable.
    rewrite absorbing_trace, execCommand0_trace. apply _execCommand_events.
  - intros tableName dbName mustExist. unfold dropTable.
    rewrite absorbing_trace, execCommand0_trace. apply _execCommand_events.
  - intros [name|]; [|exact Hnil]. unfold dbExists.
    rewrite (bind_pure_trace _ _ _ _ first_is_one_trace).
    apply _execCommand_events.
  - intros tableName dbName. unfold tableExists.
    rewrite (bind_pure_trace _ _ _ _ first_is_one_trace).
    apply _execCommand_events.
  - intros tableName dbName. unfold isView.
    rewrite (bind_pure_trace _ _ _ _ single_row_is_VIEW_trace).
    apply _execCommand_events.
  - intros userName hostName. unfold userExists.
    rewrite (bind_pure_trace _ _ _ _ first_is_not_zero_trace).
    apply _execCommand_events.
Qed.

End OperationsCalls.

(** X22.  A "maxRetryCount" that is a string fails construction with the
    [TypeError] of [1 + maxRetryCount], whatever the other keys are: the
    sum is computed before the keys are checked. *)
Theorem __init___non_numeric_retry_count (kwargs : dict) (s : string) :
  dict_get "maxRetryCount" (VInt 0) kwargs = VStr s →
  __init__ kwargs =
    Raises (PyExc "TypeError"
              "unsupported operand type(s) for +: 'int' and 'str'").
Proof.
  intros Hs. unfold __init__, dict_pop. cbn zeta.
  by rewrite dict_get_del_ne, Hs by done.
Qed.

Lemma __init___non_numeric_retry_count_witness :
  __init__ [("bogus", VInt 1); ("maxRetryCount", VStr "many")] =
  Raises (PyExc "TypeError"
            "unsupported operand type(s) for +: 'int' and 'str'").
Proof.
  exact (__init___non_numeric_retry_count
           [("bogus", VInt 1); ("maxRetryCount", VStr "many")] "many" eq_refl).
Defined.
